(** * ol/source/ogcTileUtil: link selection, tile matrix set parsing and tile URLs

    A shallow embedding of [src/ol/source/ogcTileUtil.js].

    Conventions of the embedding:
    - a JavaScript value that may be [undefined] is an [option];
    - [!x] on a string-or-undefined variable is [negb (truthy x)]: both
      [undefined] and the empty string are falsy;
    - an object literal is a finite map of its own properties, and a read
      of a name it does not own finds the member of that name inherited from
      [Object.prototype], if there is one;
    - a call that may [throw] returns a [completion];
    - tile indices are integers ([Z]); the statements that compute with
      them or print them take them in the range of the safe integers, where
      the arithmetic of JavaScript numbers is exact and a number prints in
      decimal; coordinates and resolutions are only copied, never computed
      with, so their carrier is a type parameter. *)

From Stdlib Require Import ZArith String Ascii List DecimalString.
From stdpp Require Import base option list gmap strings.

Local Open Scope Z_scope.

(** ** Abrupt completion *)

Inductive exn : Type :=
  | Error (message : string)
  | TypeError.

Inductive completion (A : Type) : Type :=
  | Return (value : A)
  | Throw (e : exn).

Arguments Return {A} value.
Arguments Throw {A} e.

(** ** Strings *)

Definition dquote : string := String (ascii_of_nat 34) EmptyString.

(** [s.indexOf(pat)]: position of the first occurrence, [-1] when there is none. *)
Definition indexOf (s pat : string) : Z :=
  match String.index 0 pat s with
  | Some n => Z.of_nat n
  | None => -1
  end.

(** [s.substr(0, n)] *)
Definition substr0 (n : nat) (s : string) : string := String.substring 0 n s.

(** Substring test, used to state what an error message mentions. *)
Definition includes (s pat : string) : bool :=
  match String.index 0 pat s with
  | Some _ => true
  | None => false
  end.

(** Truthiness of a variable holding a string or [undefined]. *)
Definition truthy (v : option string) : bool :=
  match v with
  | Some s => negb (String.eqb s EmptyString)
  | None => false
  end.

(** [t === mediaType], where [mediaType] is an optional argument. *)
Definition strictEq (t : string) (mediaType : option string) : bool :=
  match mediaType with
  | Some m => String.eqb t m
  | None => false
  end.

(** ** Links and the known media types *)

Record Link : Type := mkLink {
  rel : string;
  href : string;
  type : string;
}.

Definition knownMapMediaTypes : gmap string bool :=
  {[ "image/png" := true;
     "image/jpeg" := true;
     "image/gif" := true;
     "image/webp" := true ]}.

Definition knownVectorMediaTypes : gmap string bool :=
  {[ "application/vnd.mapbox-vector-tile" := true;
     "application/geo+json" := true ]}.

(** The names of the members of [Object.prototype], which every object
    literal inherits.  Each of them is a function or an object, hence
    truthy. *)
Definition objectPrototypeKeys : list string :=
  ["constructor"; "__defineGetter__"; "__defineSetter__"; "hasOwnProperty";
   "__lookupGetter__"; "__lookupSetter__"; "isPrototypeOf";
   "propertyIsEnumerable"; "toString"; "valueOf"; "__proto__";
   "toLocaleString"].

Definition inherits (key : string) : bool :=
  bool_decide (key ∈ objectPrototypeKeys).

(** [table[key]] used as a condition: the table's own entry, else the
    inherited member of that name. *)
Definition hasTrue (table : gmap string bool) (key : string) : bool :=
  match table !! key with
  | Some b => b
  | None => inherits key
  end.

Definition notFoundMessage : string :=
  ("Could not find " +:+ dquote +:+ "item" +:+ dquote +:+ " link")%string.

(** ** getMapTileUrlTemplate *)

(** The [for] loop, from the link at hand to the end of the array.  The result
    is the pair [(tileUrlTemplate, fallbackUrlTemplate)] when the loop is left,
    by [break] or by exhaustion. *)
Fixpoint mapLoop (mediaType : option string) (links : list Link)
    (fallbackUrlTemplate : option string) : option string * option string :=
  match links with
  | [] => (None, fallbackUrlTemplate)
  | link :: rest =>
      if String.eqb (rel link) "item" then
        if strictEq (type link) mediaType then
          (Some (href link), fallbackUrlTemplate)
        else if hasTrue knownMapMediaTypes (type link) then
          mapLoop mediaType rest (Some (href link))
        else if negb (truthy fallbackUrlTemplate)
                && (indexOf (type link) "image/" =? 0) then
          mapLoop mediaType rest (Some (href link))
        else
          mapLoop mediaType rest fallbackUrlTemplate
      else
        mapLoop mediaType rest fallbackUrlTemplate
  end.

(** The code after the loop, shared by both selectors. *)
Definition selectTemplate (vars : option string * option string)
    : completion string :=
  let '(tileUrlTemplate, fallbackUrlTemplate) := vars in
  if negb (truthy tileUrlTemplate) then
    if truthy fallbackUrlTemplate then
      Return (default EmptyString fallbackUrlTemplate)
    else
      Throw (Error notFoundMessage)
  else
    Return (default EmptyString tileUrlTemplate).

Definition getMapTileUrlTemplate (links : list Link)
    (mediaType : option string) : completion string :=
  selectTemplate (mapLoop mediaType links None).

(** ** getVectorTileUrlTemplate *)

Fixpoint vectorLoop (mediaType : option string) (links : list Link)
    (fallbackUrlTemplate : option string) : option string * option string :=
  match links with
  | [] => (None, fallbackUrlTemplate)
  | link :: rest =>
      if String.eqb (rel link) "item" then
        if strictEq (type link) mediaType then
          (Some (href link), fallbackUrlTemplate)
        else if hasTrue knownVectorMediaTypes (type link) then
          vectorLoop mediaType rest (Some (href link))
        else
          vectorLoop mediaType rest fallbackUrlTemplate
      else
        vectorLoop mediaType rest fallbackUrlTemplate
  end.

Definition getVectorTileUrlTemplate (links : list Link)
    (mediaType : option string) : completion string :=
  selectTemplate (vectorLoop mediaType links None).

(** ** Values substituted into a URL template *)

Inductive jsval : Type :=
  | VUndefined
  | VNull
  | VBool (b : bool)
  | VNum (n : Z)
  | VStr (s : string).

(** Conversion to a string, as [String.prototype.replace] applies it to what
    the replacer function returns.  Numbers are integers here; the decimal
    form is the one JavaScript gives to an integer below 10^21. *)
Definition toString (v : jsval) : string :=
  match v with
  | VUndefined => "undefined"
  | VNull => "null"
  | VBool true => "true"
  | VBool false => "false"
  | VNum n => NilZero.string_of_int (Z.to_int n)
  | VStr s => s
  end.

(** [\w] *)
Definition isWordChar (c : ascii) : bool :=
  let n := nat_of_ascii c in
  ((48 <=? n) && (n <=? 57) || (65 <=? n) && (n <=? 90)
   || (97 <=? n) && (n <=? 122) || (n =? 95))%nat.

(** [(\w+?)\}] once the word characters [p] (at least one) are taken: stop at
    the first closing brace, take one more word character otherwise. *)
Fixpoint matchName (p : string) (s : string) : option (string * string) :=
  match s with
  | EmptyString => None
  | String c s' =>
      if Ascii.eqb c "}" then Some (p, s')
      else if isWordChar c then matchName (p +:+ String c EmptyString) s'
      else None
  end.

(** A match of [/\{(\w+?)\}/] at the very start of [s]: the captured name and
    the text after the match. *)
Definition matchPlaceholder (s : string) : option (string * string) :=
  match s with
  | String open (String c s') =>
      if Ascii.eqb open "{" && isWordChar c
      then matchName (String c EmptyString) s'
      else None
  | _ => None
  end.

(** [s.replace(/\{(\w+?)\}/g, function (m, p) { return f(p) })]: at each
    position either a match is replaced and the scan resumes after it, or one
    character is copied. *)
Fixpoint replaceFrom (fuel : nat) (f : string -> string) (s : string) : string :=
  match fuel with
  | O => s
  | S fuel' =>
      match s with
      | EmptyString => EmptyString
      | String c rest =>
          match matchPlaceholder s with
          | Some (p, after) => f p +:+ replaceFrom fuel' f after
          | None => String c (replaceFrom fuel' f rest)
          end
      end
  end.

Definition replacePlaceholders (f : string -> string) (s : string) : string :=
  replaceFrom (String.length s) f s.

(** Modelled from the spec: [assign] of [ol/obj.js], which is not among the
    sources.  The entries of [source] are laid over [target]; an entry of
    [source] wins over an entry of [target] with the same key; an absent
    [source] changes nothing. *)
Definition assign (target : gmap string jsval)
    (source : option (gmap string jsval)) : gmap string jsval :=
  match source with
  | Some entries => entries ∪ target
  | None => target
  end.

(** An inherited member converted to a string: [Object.prototype] itself
    for [__proto__], else a native function, whose text is the engine's (the
    one V8 gives is taken). *)
Definition inheritedText (key : string) : string :=
  if String.eqb key "__proto__" then "[object Object]"
  else "function "
       +:+ (if String.eqb key "constructor" then "Object" else key)
       +:+ "() { [native code] }".

(** [localContext[p]] as the replacer returns it, converted to a string. *)
Definition substitute (localContext : gmap string jsval) (p : string) : string :=
  match localContext !! p with
  | Some v => toString v
  | None => if inherits p then inheritedText p else toString VUndefined
  end.

Definition BOTTOM_LEFT_ORIGIN : string := "bottomLeft".

(** [a[i]] for a number [i]: [undefined] outside the array. *)
Definition at_index {A : Type} (a : list A) (i : Z) : option A :=
  if 0 <=? i then a !! Z.to_nat i else None.

(** ** Tile matrix sets *)

(** Modelled from the spec: a projection of [ol/proj], of which this module
    reads the axis orientation only. *)
Record Projection : Type := mkProjection {
  getAxisOrientation : string;
}.

Section TileMatrixSets.

(** Map coordinates and resolutions. *)
Variable number : Type.

Record TileMatrix : Type := mkTileMatrix {
  id : string;
  cellSize : number;
  pointOfOrigin : number * number;
  cornerOfOrigin : option string;
  matrixWidth : Z;
  matrixHeight : Z;
  tileWidth : Z;
  tileHeight : Z;
}.

Record TileMatrixSet : Type := mkTileMatrixSet {
  tmsId : string;
  crs : string;
  tileMatrices : list TileMatrix;
}.

Record SourceInfo : Type := mkSourceInfo {
  url : string;
  mediaType : option string;
  projection : option Projection;
  context : option (gmap string jsval);
}.

(** Modelled from the spec: the tile grid of [ol/tilegrid/TileGrid.js], which
    is not among the sources, accepts four parallel per-level arrays.  A grid
    is represented by the arrays its constructor is given, and constructing
    one does not throw.  An array made by [new Array(length)] starts with
    [length] empty slots, so a slot is an [option]. *)
Record TileGrid : Type := mkTileGrid {
  origins : list (option (number * number));
  resolutions : list (option number);
  sizes : list (option (Z * Z));
  tileSizes : list (option (Z * Z));
}.

Definition TileCoord : Type := Z * Z * Z.

Record TileSetInfo : Type := mkTileSetInfo {
  grid : TileGrid;
  urlTemplate : string;
  urlFunction : option TileCoord -> completion (option string);
}.

(** The projection registry [get] of [ol/proj.js] and [resolveUrl] of
    [ol/net.js] are collaborators of this module. *)
Variable getProjection : string -> option Projection.
Variable resolveUrl : string -> string -> string.

(** The body of the loop over the matrices at index [i]. *)
Definition storeLevel (backwards : bool) (i : nat) (matrix : TileMatrix)
    (g : TileGrid) : TileGrid :=
  let origin := pointOfOrigin matrix in
  {| origins :=
       if backwards
       then <[i := Some (snd origin, fst origin)]> (origins g)
       else <[i := Some origin]> (origins g);
     resolutions := <[i := Some (cellSize matrix)]> (resolutions g);
     sizes := <[i := Some (matrixWidth matrix, matrixHeight matrix)]> (sizes g);
     tileSizes := <[i := Some (tileWidth matrix, tileHeight matrix)]> (tileSizes g) |}.

(** The loop from index [i] on; [rest] holds the matrices from [i] to the end. *)
Fixpoint levelLoop (backwards : bool) (i : nat) (rest : list TileMatrix)
    (g : TileGrid) : TileGrid :=
  match rest with
  | [] => g
  | matrix :: rest' => levelLoop backwards (S i) rest' (storeLevel backwards i matrix g)
  end.

(** The object literal bound to [localContext]. *)
Definition localContextLiteral (matrix : TileMatrix) (tileCoord : TileCoord)
    : gmap string jsval :=
  let '(_, col, row) := tileCoord in
  let upsideDown := strictEq BOTTOM_LEFT_ORIGIN (cornerOfOrigin matrix) in
  {[ "tileMatrix" := VStr (id matrix);
     "tileCol" := VNum col;
     "tileRow" := VNum (if upsideDown then - row - 1 else row) ]}.

(** [localContext] once [assign(localContext, context)] has run. *)
Definition localContextOf (context : option (gmap string jsval))
    (matrix : TileMatrix) (tileCoord : TileCoord) : gmap string jsval :=
  assign (localContextLiteral matrix tileCoord) context.

(** The parameters [pixelRatio] and [projection] of the function are not
    used by it and are left out. *)
Definition tileUrlFunction (matrices : list TileMatrix)
    (context : option (gmap string jsval)) (base tileUrlTemplate : string)
    (tileCoord : option TileCoord) : completion (option string) :=
  match tileCoord with
  | None => Return None
  | Some coord =>
      match at_index matrices (fst (fst coord)) with
      | None => Throw TypeError
      | Some matrix =>
          let localContext := localContextOf context matrix coord in
          let url := replacePlaceholders (substitute localContext) tileUrlTemplate in
          Return (Some (resolveUrl base url))
      end
  end.

Definition unsupportedCrs (tileMatrixSet : TileMatrixSet) : exn :=
  Error ("Unsupported CRS: " +:+ crs tileMatrixSet).

(** The projection in use: the source's own, else the registry's. *)
Definition resolveProjection (sourceInfo : SourceInfo)
    (tileMatrixSet : TileMatrixSet) : completion Projection :=
  match projection sourceInfo with
  | Some p => Return p
  | None =>
      match getProjection (crs tileMatrixSet) with
      | Some p => Return p
      | None => Throw (unsupportedCrs tileMatrixSet)
      end
  end.

Definition isBackwards (p : Projection) : bool :=
  negb (String.eqb (substr0 2 (getAxisOrientation p)) "en").

Definition emptyGrid (length : nat) : TileGrid :=
  {| origins := replicate length None;
     resolutions := replicate length None;
     sizes := replicate length None;
     tileSizes := replicate length None |}.

(** [tileUrlTemplate] is the variable of [getTileSetInfo] that
    [parseTileSetMetadata] has assigned before this function runs. *)
Definition parseTileMatrixSet (sourceInfo : SourceInfo) (tileUrlTemplate : string)
    (tileMatrixSet : TileMatrixSet) : completion TileSetInfo :=
  match resolveProjection sourceInfo tileMatrixSet with
  | Throw e => Throw e
  | Return p =>
      let backwards := isBackwards p in
      let matrices := tileMatrices tileMatrixSet in
      let length := List.length matrices in
      let tileGrid := levelLoop backwards 0 matrices (emptyGrid length) in
      Return {| grid := tileGrid;
                urlTemplate := tileUrlTemplate;
                urlFunction :=
                  tileUrlFunction matrices (context sourceInfo) (url sourceInfo)
                    tileUrlTemplate |}
  end.

End TileMatrixSets.

Arguments id {number} _.
Arguments cellSize {number} _.
Arguments pointOfOrigin {number} _.
Arguments cornerOfOrigin {number} _.
Arguments matrixWidth {number} _.
Arguments matrixHeight {number} _.
Arguments tileWidth {number} _.
Arguments tileHeight {number} _.
Arguments tmsId {number} _.
Arguments crs {number} _.
Arguments tileMatrices {number} _.
Arguments origins {number} _.
Arguments resolutions {number} _.
Arguments sizes {number} _.
Arguments tileSizes {number} _.
Arguments grid {number} _.
Arguments urlTemplate {number} _.
Arguments urlFunction {number} _.
Arguments storeLevel {number} _ _ _ _.
Arguments levelLoop {number} _ _ _ _.
Arguments emptyGrid {number} _.
Arguments localContextLiteral {number} _ _.
Arguments localContextOf {number} _ _ _.
Arguments tileUrlFunction {number} _ _ _ _ _ _.
Arguments unsupportedCrs {number} _.
Arguments resolveProjection {number} _ _ _.
Arguments parseTileMatrixSet {number} _ _ _ _ _.

(** ** Vocabulary of the statements *)

(** The link has relation "item" and exactly the preferred media type. *)
Definition exactMatch (mediaType : option string) (l : Link) : Prop :=
  rel l = "item" /\ mediaType = Some (type l).

Definition knownRasterType (t : string) : Prop :=
  t ∈ ["image/png"; "image/jpeg"; "image/gif"; "image/webp"].

Definition knownVectorType (t : string) : Prop :=
  t ∈ ["application/vnd.mapbox-vector-tile"; "application/geo+json"].

Definition knownMapLink (l : Link) : Prop :=
  rel l = "item" /\ knownRasterType (type l).

Definition knownVectorLink (l : Link) : Prop :=
  rel l = "item" /\ knownVectorType (type l).

Definition beginsWith (p s : string) : Prop := String.prefix p s = true.

(** The name of a member that every object literal inherits. *)
Definition inheritedName (t : string) : Prop := t ∈ objectPrototypeKeys.

(** An "item" link whose type is such a name. *)
Definition inheritedLink (l : Link) : Prop :=
  rel l = "item" /\ inheritedName (type l).

(** [Number.isSafeInteger]: the integers of magnitude below 2^53. *)
Definition safeInteger (n : Z) : Prop := - (2 ^ 53 - 1) <= n <= 2 ^ 53 - 1.

(** An "item" link that is neither the preferred type nor a known raster
    type, but whose type begins with "image/". *)
Definition looseMapLink (mediaType : option string) (l : Link) : Prop :=
  rel l = "item" /\ mediaType <> Some (type l)
  /\ ~ knownRasterType (type l) /\ beginsWith "image/" (type l).

(** The value of [fallbackUrlTemplate] when the loop of
    [getMapTileUrlTemplate] has gone through [links]. *)
Definition fallbackAfter (mediaType : option string) (links : list Link)
    : option string :=
  snd (mapLoop mediaType links None).




(** What the caller's context holds for [key], if anything. *)
Definition callerValue (context : option (gmap string jsval)) (key : string)
    : option jsval :=
  match context with
  | Some entries => entries !! key
  | None => None
  end.

(** The origin stored for a level. *)
Definition levelOrigin {number : Type} (backwards : bool)
    (matrix : TileMatrix number) : number * number :=
  if backwards
  then (snd (pointOfOrigin matrix), fst (pointOfOrigin matrix))
  else pointOfOrigin matrix.

(** The effect of the loop over the matrices on one of the four arrays:
    slot [i], [i + 1], ... receive what [f] reads off each matrix in turn. *)
Fixpoint fill {M A : Type} (f : M -> A) (i : nat) (rest : list M)
    (a : list (option A)) : list (option A) :=
  match rest with
  | [] => a
  | m :: rest' => fill f (S i) rest' (<[i := Some (f m)]> a)
  end.

(** Stand-ins for the collaborators, for statements evaluated on concrete
    data: a registry of two projections, and a resolver that appends the
    relative URL to the base. *)
Definition exampleRegistry (code : string) : option Projection :=
  if String.eqb code "EPSG:3857" then Some (mkProjection "enu")
  else if String.eqb code "EPSG:4326" then Some (mkProjection "neu")
  else None.

Definition exampleResolveUrl (base relative : string) : string :=
  base +:+ relative.

Definition exampleMatrices : list (TileMatrix Z) :=
  [mkTileMatrix Z "0" 1000 (10, 20) None 1 1 256 256;
   mkTileMatrix Z "1" 500 (10, 20) (Some "topLeft") 2 2 256 256;
   mkTileMatrix Z "2" 250 (10, 20) (Some "bottomLeft") 4 4 512 512].

(** ** Tile sets and the fetch pipeline *)

Definition TileType_MAP : string := "map".
Definition TileType_VECTOR : string := "vector".

Definition invalidDataTypeMessage : string :=
  "Expected tileset data type to be " +:+ dquote +:+ "map" +:+ dquote
  +:+ " or " +:+ dquote +:+ "vector" +:+ dquote.

Definition missingMatrixSetMessage : string :=
  "Expected tileMatrixSetDefinition or tileMatrixSet".

Section TileSets.

Variable number : Type.

(** The optional [tileMatrixSetLimits] of a tile set are never read by the
    module and are left out. *)
Record TileSet : Type := mkTileSet {
  dataType : string;
  tileMatrixSetDefinition : option string;
  tileMatrixSet : option (TileMatrixSet number);
  links : list Link;
}.

Variable getProjection : string -> option Projection.
Variable resolveUrl : string -> string -> string.

(** [getJSON] of [ol/net.js] is a collaborator of this module.  It is taken
    at the two types at which the module reads the document it yields.  A
    promise is represented by the completion it settles to: [Return] when it
    resolves, [Throw] when it rejects. *)
Variable getTileSetJSON : string -> completion TileSet.
Variable getTileMatrixSetJSON : string -> completion (TileMatrixSet number).

(** The assignment to [tileUrlTemplate] at the head of
    [parseTileSetMetadata]. *)
Definition selectUrlTemplate (sourceInfo : SourceInfo) (tileSet : TileSet)
    : completion string :=
  if String.eqb (dataType tileSet) TileType_MAP then
    getMapTileUrlTemplate (links tileSet) (mediaType sourceInfo)
  else if String.eqb (dataType tileSet) TileType_VECTOR then
    getVectorTileUrlTemplate (links tileSet) (mediaType sourceInfo)
  else
    Throw (Error invalidDataTypeMessage).

Definition parseTileSetMetadata (sourceInfo : SourceInfo) (tileSet : TileSet)
    : completion (TileSetInfo number) :=
  match selectUrlTemplate sourceInfo tileSet with
  | Throw e => Throw e
  | Return tileUrlTemplate =>
      match tileMatrixSet tileSet with
      | Some inline =>
          parseTileMatrixSet getProjection resolveUrl sourceInfo
            tileUrlTemplate inline
      | None =>
          if negb (truthy (tileMatrixSetDefinition tileSet)) then
            Throw (Error missingMatrixSetMessage)
          else
            let url :=
              resolveUrl (url sourceInfo)
                (default EmptyString (tileMatrixSetDefinition tileSet)) in
            match getTileMatrixSetJSON url with
            | Throw e => Throw e
            | Return fetched =>
                parseTileMatrixSet getProjection resolveUrl sourceInfo
                  tileUrlTemplate fetched
            end
      end
  end.

Definition getTileSetInfo (sourceInfo : SourceInfo)
    : completion (TileSetInfo number) :=
  match getTileSetJSON (url sourceInfo) with
  | Throw e => Throw e
  | Return tileSet => parseTileSetMetadata sourceInfo tileSet
  end.

End TileSets.

Arguments dataType {number} _.
Arguments tileMatrixSetDefinition {number} _.
Arguments tileMatrixSet {number} _.
Arguments links {number} _.
Arguments selectUrlTemplate {number} _ _.
Arguments parseTileSetMetadata {number} _ _ _ _ _.
Arguments getTileSetInfo {number} _ _ _ _ _.

(** The character [c] occurs in [s]. *)
Fixpoint occurs (c : ascii) (s : string) : bool :=
  match s with
  | EmptyString => false
  | String d s' => Ascii.eqb d c || occurs c s'
  end.

(** The names of the placeholders of a template, in the order in which the
    scan of [replacePlaceholders] meets them. *)
Fixpoint namesFrom (fuel : nat) (s : string) : list string :=
  match fuel with
  | O => []
  | S fuel' =>
      match s with
      | EmptyString => []
      | String c rest =>
          match matchPlaceholder s with
          | Some (p, after) => p :: namesFrom fuel' after
          | None => namesFrom fuel' rest
          end
      end
  end.

Definition placeholderNames (s : string) : list string :=
  namesFrom (String.length s) s.

(** [z] is an index into an array of [n] elements. *)
Definition inRange (z : Z) (n : nat) : Prop := 0 <= z < Z.of_nat n.

(** Stand-ins for [getJSON]: one tile set document, which refers to its
    matrix set by URL, and that matrix set. *)
Definition exampleTileSet : TileSet Z :=
  mkTileSet Z "map" (Some "/tileMatrixSets/WebMercatorQuad") None
    [mkLink "self" "/tiles" "application/json";
     mkLink "item" "/{tileMatrix}/{tileRow}/{tileCol}.png" "image/png";
     mkLink "item" "/{tileMatrix}/{tileRow}/{tileCol}.jpg" "image/jpeg"].

Definition exampleGetTileSet (u : string) : completion (TileSet Z) :=
  if String.eqb u "https://host" then Return exampleTileSet
  else Throw (Error "Not found").

Definition exampleGetTileMatrixSet (u : string)
    : completion (TileMatrixSet Z) :=
  if String.eqb u "https://host/tileMatrixSets/WebMercatorQuad"
  then Return (mkTileMatrixSet Z "WebMercatorQuad" "EPSG:3857" exampleMatrices)
  else Throw (Error "Not found").

(** ** Reading the conditions of the loops *)

Lemma strictEq_true t mediaType : strictEq t mediaType = true <-> mediaType = Some t.
Proof.
  destruct mediaType as [m|]; simpl.
  - rewrite String.eqb_eq. split; [intros ->; reflexivity | intros [= ->]; reflexivity].
  - split; discriminate.
Qed.

Lemma strictEq_false t mediaType : strictEq t mediaType = false <-> mediaType <> Some t.
Proof. rewrite <- strictEq_true. destruct (strictEq t mediaType); split; congruence. Qed.

Lemma inherits_true t : inherits t = true <-> inheritedName t.
Proof. unfold inherits, inheritedName. apply bool_decide_eq_true. Qed.

(** The lookup in the table of raster types succeeds on the four types of
    the table and on the inherited names. *)
Lemma hasTrue_map t :
  hasTrue knownMapMediaTypes t = true <-> knownRasterType t \/ inheritedName t.
Proof.
  rewrite <- inherits_true.
  unfold hasTrue, knownMapMediaTypes, knownRasterType.
  rewrite !elem_of_cons, elem_of_nil.
  repeat (rewrite lookup_insert; case_decide; [subst; simpl; tauto |]).
  rewrite lookup_singleton. case_decide; [subst; simpl; tauto |].
  simpl. split; [tauto | intros [H' | H']; [exfalso; intuition congruence | done]].
Qed.

Lemma hasTrue_vector t :
  hasTrue knownVectorMediaTypes t = true
  <-> knownVectorType t \/ inheritedName t.
Proof.
  rewrite <- inherits_true.
  unfold hasTrue, knownVectorMediaTypes, knownVectorType.
  rewrite !elem_of_cons, elem_of_nil.
  repeat (rewrite lookup_insert; case_decide; [subst; simpl; tauto |]).
  rewrite lookup_singleton. case_decide; [subst; simpl; tauto |].
  simpl. split; [tauto | intros [H' | H']; [exfalso; intuition congruence | done]].
Qed.

Lemma inheritedName_not_image t :
  inheritedName t -> ~ beginsWith "image/" t.
Proof.
  unfold inheritedName, objectPrototypeKeys, beginsWith.
  rewrite !elem_of_cons, elem_of_nil.
  intros H. repeat (destruct H as [-> | H]; [discriminate |]). destruct H.
Qed.

Lemma indexOf_zero s p : indexOf s p = 0 <-> beginsWith p s.
Proof.
  unfold indexOf, beginsWith.
  destruct s as [|a s].
  - destruct p; simpl; split; (reflexivity || discriminate).
  - change (String.index 0 p (String a s))
      with (if String.prefix p (String a s) then Some 0%nat
            else match String.index 0 p s with
                 | Some n => Some (S n)
                 | None => None
                 end).
    destruct (String.prefix p (String a s)); [split; reflexivity |].
    destruct (String.index 0 p s); split; (discriminate || lia).
Qed.

Lemma truthy_Some s : truthy (Some s) = true <-> s <> EmptyString.
Proof.
  simpl. rewrite negb_true_iff, String.eqb_neq. reflexivity.
Qed.

(** ** The loops, one link at a time *)

Lemma mapLoop_app mediaType pre rest fb :
  Forall (fun x => ~ exactMatch mediaType x) pre ->
  mapLoop mediaType (pre ++ rest) fb
  = mapLoop mediaType rest (snd (mapLoop mediaType pre fb)).
Proof.
  intros Hpre. revert fb.
  induction Hpre as [|x pre Hx _ IH]; intros fb; [reflexivity |].
  simpl. destruct (String.eqb (rel x) "item") eqn:Hrel; [| apply IH].
  destruct (strictEq (type x) mediaType) eqn:Hty.
  - exfalso. apply Hx. split; [by apply String.eqb_eq | by apply strictEq_true].
  - destruct (hasTrue knownMapMediaTypes (type x)); [apply IH |].
    destruct (negb (truthy fb) && (indexOf (type x) "image/" =? 0)); apply IH.
Qed.

Lemma vectorLoop_app mediaType pre rest fb :
  Forall (fun x => ~ exactMatch mediaType x) pre ->
  vectorLoop mediaType (pre ++ rest) fb
  = vectorLoop mediaType rest (snd (vectorLoop mediaType pre fb)).
Proof.
  intros Hpre. revert fb.
  induction Hpre as [|x pre Hx _ IH]; intros fb; [reflexivity |].
  simpl. destruct (String.eqb (rel x) "item") eqn:Hrel; [| apply IH].
  destruct (strictEq (type x) mediaType) eqn:Hty.
  - exfalso. apply Hx. split; [by apply String.eqb_eq | by apply strictEq_true].
  - destruct (hasTrue knownVectorMediaTypes (type x)); apply IH.
Qed.

Lemma mapLoop_exact mediaType l rest fb :
  exactMatch mediaType l ->
  mapLoop mediaType (l :: rest) fb = (Some (href l), fb).
Proof.
  intros [Hrel Hty]. simpl.
  apply String.eqb_eq in Hrel. apply strictEq_true in Hty.
  by rewrite Hrel, Hty.
Qed.

Lemma vectorLoop_exact mediaType l rest fb :
  exactMatch mediaType l ->
  vectorLoop mediaType (l :: rest) fb = (Some (href l), fb).
Proof.
  intros [Hrel Hty]. simpl.
  apply String.eqb_eq in Hrel. apply strictEq_true in Hty.
  by rewrite Hrel, Hty.
Qed.

Lemma mapLoop_known mediaType l rest fb :
  ~ exactMatch mediaType l -> knownMapLink l ->
  mapLoop mediaType (l :: rest) fb = mapLoop mediaType rest (Some (href l)).
Proof.
  intros Hne [Hrel Hk]. simpl.
  assert (Hh : hasTrue knownMapMediaTypes (type l) = true)
    by (apply hasTrue_map; by left).
  rewrite Hh.
  destruct (strictEq (type l) mediaType) eqn:Hty.
  - exfalso. apply Hne. split; [done | by apply strictEq_true].
  - apply String.eqb_eq in Hrel. by rewrite Hrel.
Qed.

Lemma vectorLoop_known mediaType l rest fb :
  ~ exactMatch mediaType l -> knownVectorLink l ->
  vectorLoop mediaType (l :: rest) fb = vectorLoop mediaType rest (Some (href l)).
Proof.
  intros Hne [Hrel Hk]. simpl.
  assert (Hh : hasTrue knownVectorMediaTypes (type l) = true)
    by (apply hasTrue_vector; by left).
  rewrite Hh.
  destruct (strictEq (type l) mediaType) eqn:Hty.
  - exfalso. apply Hne. split; [done | by apply strictEq_true].
  - apply String.eqb_eq in Hrel. by rewrite Hrel.
Qed.

Lemma mapLoop_loose mediaType l rest fb :
  looseMapLink mediaType l ->
  mapLoop mediaType (l :: rest) fb
  = mapLoop mediaType rest (if truthy fb then fb else Some (href l)).
Proof.
  intros (Hrel & Hty & Hk & Hp). simpl.
  apply String.eqb_eq in Hrel. apply strictEq_false in Hty.
  apply indexOf_zero in Hp. rewrite Hrel, Hty, Hp.
  destruct (hasTrue knownMapMediaTypes (type l)) eqn:Hh.
  - exfalso. apply hasTrue_map in Hh as [Hh | Hh]; [by apply Hk |].
    apply indexOf_zero in Hp. by apply (inheritedName_not_image (type l)).
  - by destruct (truthy fb).
Qed.

(** Once a non-empty fallback is recorded, only an exact match or a link
    whose type the table of raster types answers for (a known raster type, or
    an inherited name) changes the variables of the map loop. *)
Lemma mapLoop_keep mediaType links fb :
  truthy fb = true ->
  Forall (fun x => ~ exactMatch mediaType x
                   /\ ~ knownMapLink x /\ ~ inheritedLink x) links ->
  mapLoop mediaType links fb = (None, fb).
Proof.
  intros Hfb Hl.
  induction Hl as [|x links (Hx & Hk & Hi) _ IH]; [reflexivity |].
  simpl. destruct (String.eqb (rel x) "item") eqn:Hrel; [| apply IH].
  apply String.eqb_eq in Hrel.
  destruct (strictEq (type x) mediaType) eqn:Hty.
  { exfalso. apply Hx. split; [done | by apply strictEq_true]. }
  destruct (hasTrue knownMapMediaTypes (type x)) eqn:Hh.
  { exfalso. apply hasTrue_map in Hh as [Hh | Hh];
      [by apply Hk | by apply Hi]. }
  rewrite Hfb. apply IH.
Qed.

Lemma vectorLoop_keep mediaType links fb :
  Forall (fun x => ~ exactMatch mediaType x
                   /\ ~ knownVectorLink x /\ ~ inheritedLink x) links ->
  vectorLoop mediaType links fb = (None, fb).
Proof.
  intros Hl.
  induction Hl as [|x links (Hx & Hk & Hi) _ IH]; [reflexivity |].
  simpl. destruct (String.eqb (rel x) "item") eqn:Hrel; [| apply IH].
  apply String.eqb_eq in Hrel.
  destruct (strictEq (type x) mediaType) eqn:Hty.
  { exfalso. apply Hx. split; [done | by apply strictEq_true]. }
  destruct (hasTrue knownVectorMediaTypes (type x)) eqn:Hh.
  { exfalso. apply hasTrue_vector in Hh as [Hh | Hh];
      [by apply Hk | by apply Hi]. }
  apply IH.
Qed.

Lemma selectTemplate_exact h fb :
  h <> EmptyString -> selectTemplate (Some h, fb) = Return h.
Proof.
  intros Hh. unfold selectTemplate.
  apply truthy_Some in Hh. by rewrite Hh.
Qed.

Lemma selectTemplate_fallback h :
  h <> EmptyString -> selectTemplate (None, Some h) = Return h.
Proof.
  intros Hh. unfold selectTemplate.
  apply truthy_Some in Hh. simpl in *. by rewrite Hh.
Qed.

(** ** Link selection: the claims *)

(** Discharges a side condition on given links by evaluation, once [tac]
    has unfolded the predicates it is stated with. *)
Ltac evaluate_after tac :=
  repeat (apply Forall_cons; split); try apply Forall_nil;
  tac; simpl; compute_done.

(** C1 (amended): when the first "item" link of exactly the preferred media
    type has a non-empty href, both selectors return that href, wherever the
    link stands in the list and whatever "item" links of other types, known
    fallback types included, precede it. *)
Theorem C1_first_exact_match_is_returned
    (pre post : list Link) (l : Link) (m : string) :
  Forall (fun x => ~ exactMatch (Some m) x) pre ->
  exactMatch (Some m) l ->
  href l <> EmptyString ->
  getMapTileUrlTemplate (pre ++ l :: post) (Some m) = Return (href l)
  /\ getVectorTileUrlTemplate (pre ++ l :: post) (Some m) = Return (href l).
Proof.
  intros Hpre Hl Hh. unfold getMapTileUrlTemplate, getVectorTileUrlTemplate.
  rewrite mapLoop_app, vectorLoop_app by done.
  rewrite mapLoop_exact, vectorLoop_exact by done.
  split; by apply selectTemplate_exact.
Qed.

Lemma C1_first_exact_match_witness :
  let links := [mkLink "self" "/tiles" "application/json";
                mkLink "item" "/t.jpg" "image/jpeg";
                mkLink "item" "/t.png" "image/png";
                mkLink "item" "/u.png" "image/png"] in
  getMapTileUrlTemplate links (Some "image/png") = Return "/t.png"
  /\ getVectorTileUrlTemplate links (Some "image/png") = Return "/t.png".
Proof.
  apply (C1_first_exact_match_is_returned
           [mkLink "self" "/tiles" "application/json";
            mkLink "item" "/t.jpg" "image/jpeg"]
           [mkLink "item" "/u.png" "image/png"]
           (mkLink "item" "/t.png" "image/png") "image/png");
    evaluate_after ltac:(unfold exactMatch).
Defined.

(** C1 as stated fails: of two "item" links of the preferred type the second
    one's href is not returned; and an exact match whose href is the empty
    string is passed over, here with nothing to fall back on. *)
Lemma C1_counterexample :
  let first := mkLink "item" "/a.png" "image/png" in
  let second := mkLink "item" "/b.png" "image/png" in
  let empty := mkLink "item" "" "image/png" in
  (exactMatch (Some "image/png") second
   /\ getMapTileUrlTemplate [first; second] (Some "image/png") = Return "/a.png"
   /\ getVectorTileUrlTemplate [first; second] (Some "image/png") = Return "/a.png"
   /\ Return (A := string) "/a.png" <> Return (href second))
  /\ (exactMatch (Some "image/png") empty
      /\ getMapTileUrlTemplate [empty] (Some "image/png") = Throw (Error notFoundMessage)
      /\ getVectorTileUrlTemplate [empty] (Some "image/png") = Throw (Error notFoundMessage)).
Proof.
  repeat split; try (vm_compute; reflexivity). discriminate.
Qed.







Lemma map_last_known_link mediaType pre k post :
  Forall (fun x => ~ exactMatch mediaType x) (pre ++ k :: post) ->
  knownMapLink k ->
  Forall (fun x => ~ knownMapLink x /\ ~ inheritedLink x) post ->
  href k <> EmptyString ->
  mapLoop mediaType (pre ++ k :: post) None = (None, Some (href k)).
Proof.
  intros Hne Hk Hpost Hh.
  apply Forall_app in Hne as [Hpre Hrest].
  apply Forall_cons in Hrest as [Hkne Hpostne].
  rewrite mapLoop_app, mapLoop_known by done.
  apply mapLoop_keep; [by apply truthy_Some |].
  apply Forall_and. by split.
Qed.

Lemma vector_last_known_link mediaType pre k post :
  Forall (fun x => ~ exactMatch mediaType x) (pre ++ k :: post) ->
  knownVectorLink k ->
  Forall (fun x => ~ knownVectorLink x /\ ~ inheritedLink x) post ->
  vectorLoop mediaType (pre ++ k :: post) None = (None, Some (href k)).
Proof.
  intros Hne Hk Hpost.
  apply Forall_app in Hne as [Hpre Hrest].
  apply Forall_cons in Hrest as [Hkne Hpostne].
  rewrite vectorLoop_app, vectorLoop_known by done.
  apply vectorLoop_keep. apply Forall_and. by split.
Qed.

(** C10 (amended): with no exact match and two or more "item" links of known
    fallback type, each selector returns the href of the last of them in scan
    order, provided that href is not the empty string and that no "item"
    link after it has a type that is the name of a member inherited from
    Object.prototype. *)
Theorem C10_last_known_type_link_wins
    (pre mid post : list Link) (k1 k2 : Link) (mediaType : option string) :
  Forall (fun x => ~ exactMatch mediaType x) (pre ++ k1 :: mid ++ k2 :: post) ->
  href k2 <> EmptyString ->
  (knownMapLink k1 -> knownMapLink k2 ->
   Forall (fun x => ~ knownMapLink x /\ ~ inheritedLink x) post ->
   getMapTileUrlTemplate (pre ++ k1 :: mid ++ k2 :: post) mediaType
   = Return (href k2))
  /\ (knownVectorLink k1 -> knownVectorLink k2 ->
      Forall (fun x => ~ knownVectorLink x /\ ~ inheritedLink x) post ->
      getVectorTileUrlTemplate (pre ++ k1 :: mid ++ k2 :: post) mediaType
      = Return (href k2)).
Proof.
  intros Hne Hh.
  replace (pre ++ k1 :: mid ++ k2 :: post)
    with ((pre ++ k1 :: mid) ++ k2 :: post) in *
    by (rewrite <- app_assoc; reflexivity).
  split; intros _ Hk2 Hpost.
  - unfold getMapTileUrlTemplate.
    rewrite map_last_known_link by done. by apply selectTemplate_fallback.
  - unfold getVectorTileUrlTemplate.
    rewrite vector_last_known_link by done. by apply selectTemplate_fallback.
Qed.

Lemma C10_last_known_type_link_witness :
  getMapTileUrlTemplate
    [mkLink "item" "/t.png" "image/png";
     mkLink "item" "/t.jpg" "image/jpeg";
     mkLink "item" "/t.tif" "image/tiff"] None = Return "/t.jpg"
  /\ getVectorTileUrlTemplate
       [mkLink "item" "/t.mvt" "application/vnd.mapbox-vector-tile";
        mkLink "item" "/t.json" "application/geo+json";
        mkLink "item" "/t.html" "text/html"] None = Return "/t.json".
Proof.
  split.
  - refine (proj1 (C10_last_known_type_link_wins
              [] [] [mkLink "item" "/t.tif" "image/tiff"]
              (mkLink "item" "/t.png" "image/png")
              (mkLink "item" "/t.jpg" "image/jpeg") None _ _) _ _ _);
      evaluate_after
        ltac:(unfold exactMatch, knownMapLink, knownRasterType,
                inheritedLink, inheritedName).
  - refine (proj2 (C10_last_known_type_link_wins
              [] [] [mkLink "item" "/t.html" "text/html"]
              (mkLink "item" "/t.mvt" "application/vnd.mapbox-vector-tile")
              (mkLink "item" "/t.json" "application/geo+json") None _ _) _ _ _);
      evaluate_after
        ltac:(unfold exactMatch, knownVectorLink, knownVectorType,
                inheritedLink, inheritedName).
Defined.

(** C10 as stated fails when the last link of known type has an empty href:
    the selectors do not return it.  The vector selector throws; the map
    selector throws as well, or returns a later "image/" link. *)
Lemma C10_counterexample :
  let png := mkLink "item" "/t.png" "image/png" in
  let jpeg := mkLink "item" "" "image/jpeg" in
  let tiff := mkLink "item" "/t.tif" "image/tiff" in
  let mvt := mkLink "item" "/t.mvt" "application/vnd.mapbox-vector-tile" in
  let json := mkLink "item" "" "application/geo+json" in
  (knownMapLink png /\ knownMapLink jpeg
   /\ getMapTileUrlTemplate [png; jpeg] None = Throw (Error notFoundMessage)
   /\ getMapTileUrlTemplate [png; jpeg; tiff] None = Return (href tiff))
  /\ (knownVectorLink mvt /\ knownVectorLink json
      /\ getVectorTileUrlTemplate [mvt; json] None = Throw (Error notFoundMessage)).
Proof.
  repeat split; try (vm_compute; reflexivity);
    evaluate_after ltac:(unfold knownRasterType, knownVectorType).
Qed.

Lemma fallbackAfter_app mediaType pre rest :
  Forall (fun x => ~ exactMatch mediaType x) pre ->
  fallbackAfter mediaType (pre ++ rest)
  = snd (mapLoop mediaType rest (fallbackAfter mediaType pre)).
Proof.
  intros Hpre. unfold fallbackAfter. by rewrite mapLoop_app.
Qed.

(** C2 (amended): in the map selector, with no exact match in the list, a
    link whose type merely begins with "image/" becomes the fallback only if
    no non-empty fallback is recorded before it: the variable keeps its value
    when that value is a non-empty string, and the selector's result is then
    the same with and without the link.  In particular such a link never
    replaces a non-empty fallback set by a link of known raster type, that
    is by the last link before it for whose type the table of raster types
    answers (a later link whose type is a known raster type or the name of a
    member inherited from Object.prototype would have set the fallback
    anew). *)
Theorem C2_loose_image_link_fills_missing_fallback_only
    (pre post : list Link) (l : Link) (mediaType : option string) :
  Forall (fun x => ~ exactMatch mediaType x) (pre ++ l :: post) ->
  looseMapLink mediaType l ->
  fallbackAfter mediaType (pre ++ [l])
  = (if truthy (fallbackAfter mediaType pre)
     then fallbackAfter mediaType pre
     else Some (href l))
  /\ (truthy (fallbackAfter mediaType pre) = true ->
      getMapTileUrlTemplate (pre ++ l :: post) mediaType
      = getMapTileUrlTemplate (pre ++ post) mediaType)
  /\ (forall before k between,
        pre = before ++ k :: between ->
        knownMapLink k ->
        href k <> EmptyString ->
        Forall (fun x => ~ knownMapLink x /\ ~ inheritedLink x) between ->
        fallbackAfter mediaType pre = Some (href k)
        /\ fallbackAfter mediaType (pre ++ [l]) = Some (href k)
        /\ getMapTileUrlTemplate (pre ++ l :: post) mediaType
           = getMapTileUrlTemplate (pre ++ post) mediaType).
Proof.
  intros Hne Hl.
  apply Forall_app in Hne as [Hpre _].
  assert (Hstep : fallbackAfter mediaType (pre ++ [l])
                  = if truthy (fallbackAfter mediaType pre)
                    then fallbackAfter mediaType pre
                    else Some (href l)).
  { rewrite fallbackAfter_app by done. by rewrite mapLoop_loose. }
  assert (Hsame : truthy (fallbackAfter mediaType pre) = true ->
                  getMapTileUrlTemplate (pre ++ l :: post) mediaType
                  = getMapTileUrlTemplate (pre ++ post) mediaType).
  { intros Hfb. unfold getMapTileUrlTemplate.
    rewrite !mapLoop_app, mapLoop_loose by done.
    fold (fallbackAfter mediaType pre). by rewrite Hfb. }
  split; [exact Hstep |]. split; [exact Hsame |].
  intros before k between -> Hk Hh Hbetween.
  assert (Hfb : fallbackAfter mediaType (before ++ k :: between) = Some (href k)).
  { unfold fallbackAfter. by rewrite map_last_known_link. }
  assert (Htruthy : truthy (fallbackAfter mediaType (before ++ k :: between)) = true).
  { rewrite Hfb. by apply truthy_Some. }
  split; [exact Hfb |]. split; [| by apply Hsame].
  by rewrite Hstep, Htruthy.
Qed.

Lemma C2_loose_image_link_witness :
  let png := mkLink "item" "/t.png" "image/png" in
  let bmp := mkLink "item" "/t.bmp" "image/bmp" in
  let tiff := mkLink "item" "/t.tif" "image/tiff" in
  fallbackAfter None [png; bmp] = Some "/t.png"
  /\ fallbackAfter None [png; bmp; tiff] = Some "/t.png"
  /\ getMapTileUrlTemplate [png; bmp; tiff; bmp] None
     = getMapTileUrlTemplate [png; bmp; bmp] None.
Proof.
  refine (proj2 (proj2 (C2_loose_image_link_fills_missing_fallback_only
            [mkLink "item" "/t.png" "image/png"; mkLink "item" "/t.bmp" "image/bmp"]
            [mkLink "item" "/t.bmp" "image/bmp"]
            (mkLink "item" "/t.tif" "image/tiff") None _ _))
          [] (mkLink "item" "/t.png" "image/png")
          [mkLink "item" "/t.bmp" "image/bmp"] eq_refl _ _ _);
    evaluate_after
      ltac:(unfold looseMapLink, exactMatch, knownMapLink, knownRasterType,
              beginsWith, inheritedLink, inheritedName).
Defined.

(** C2 as stated fails when the fallback in place is the empty string: the
    variable was set by a link of known raster type, and a later link whose
    type merely begins with "image/" replaces it. *)
Lemma C2_counterexample :
  let png := mkLink "item" "" "image/png" in
  let tiff := mkLink "item" "/t.tif" "image/tiff" in
  knownMapLink png
  /\ looseMapLink None tiff
  /\ fallbackAfter None [png] = Some (href png)
  /\ fallbackAfter None [png; tiff] = Some (href tiff)
  /\ href png <> href tiff
  /\ getMapTileUrlTemplate [png; tiff] None = Return "/t.tif".
Proof.
  repeat split; try (vm_compute; reflexivity);
    evaluate_after ltac:(unfold knownRasterType).
Qed.

(** ** Template substitution *)



Lemma matchName_length p s q after :
  matchName p s = Some (q, after) -> (String.length after < String.length s)%nat.
Proof.
  revert p. induction s as [|c s IH]; intros p; simpl; [discriminate |].
  destruct (Ascii.eqb c "}").
  - intros [= _ ->]. lia.
  - destruct (isWordChar c); [| discriminate].
    intros H. apply IH in H. lia.
Qed.

Lemma matchPlaceholder_length s q after :
  matchPlaceholder s = Some (q, after) ->
  (String.length after < String.length s)%nat.
Proof.
  destruct s as [|o [|c s]]; simpl; try discriminate.
  destruct (Ascii.eqb o "{" && isWordChar c); [| discriminate].
  intros H. apply matchName_length in H. lia.
Qed.

(** More fuel than the length of the string changes nothing. *)
Lemma replaceFrom_fuel f n : forall m s,
  (String.length s <= n)%nat -> (String.length s <= m)%nat ->
  replaceFrom n f s = replaceFrom m f s.
Proof.
  induction n as [|n IH]; intros m s Hn Hm.
  - destruct s; [| simpl in Hn; lia]. by destruct m.
  - destruct m as [|m]; [destruct s; [reflexivity | simpl in Hm; lia] |].
    destruct s as [|c rest]; [reflexivity |].
    cbn [replaceFrom].
    destruct (matchPlaceholder (String c rest)) as [[q after]|] eqn:E.
    + apply matchPlaceholder_length in E. simpl in *.
      f_equal. apply IH; lia.
    + simpl in *. f_equal. apply IH; lia.
Qed.

Lemma replacePlaceholders_nil f : replacePlaceholders f EmptyString = EmptyString.
Proof. reflexivity. Qed.

(** The scan at a non-empty string: a match is replaced and the scan goes on
    after it, otherwise the first character is copied. *)
Lemma replacePlaceholders_cons f c rest :
  replacePlaceholders f (String c rest)
  = match matchPlaceholder (String c rest) with
    | Some (p, after) => f p +:+ replacePlaceholders f after
    | None => String c (replacePlaceholders f rest)
    end.
Proof.
  unfold replacePlaceholders. cbn [String.length replaceFrom].
  destruct (matchPlaceholder (String c rest)) as [[q after]|] eqn:E.
  - apply matchPlaceholder_length in E. simpl in E.
    f_equal. apply replaceFrom_fuel; lia.
  - reflexivity.
Qed.









(** ** The loop over the tile matrices *)

Lemma fill_slots {M A : Type} (f : M -> A) (rest : list M) :
  forall (i : nat) (a : list (option A)),
    (i + length rest <= length a)%nat ->
    fill f i rest a
    = take i a ++ ((fun m => Some (f m)) <$> rest) ++ drop (i + length rest) a.
Proof.
  induction rest as [|m rest IH]; intros i a Hlen; simpl in *.
  - rewrite Nat.add_0_r. by rewrite take_drop.
  - rewrite IH by (rewrite length_insert; lia).
    rewrite (take_S_r _ _ (Some (f m)))
      by (apply list_lookup_insert_eq; lia).
    rewrite take_insert_ge by lia.
    rewrite drop_insert_lt by lia.
    rewrite <- app_assoc. simpl.
    by rewrite Nat.add_succ_r.
Qed.

(** Starting from [new Array(length)], the loop fills every slot. *)
Lemma fill_new_array {M A : Type} (f : M -> A) (matrices : list M) :
  fill f 0 matrices (replicate (length matrices) None)
  = (fun m => Some (f m)) <$> matrices.
Proof.
  rewrite fill_slots by (rewrite length_replicate; lia).
  simpl. rewrite drop_ge by (rewrite length_replicate; lia).
  by rewrite app_nil_r.
Qed.

Lemma levelLoop_fill {number : Type} backwards
    (rest : list (TileMatrix number)) :
  forall i g,
    levelLoop backwards i rest g
    = {| origins := fill (levelOrigin backwards) i rest (origins g);
         resolutions := fill cellSize i rest (resolutions g);
         sizes := fill (fun m => (matrixWidth m, matrixHeight m)) i rest (sizes g);
         tileSizes := fill (fun m => (tileWidth m, tileHeight m)) i rest (tileSizes g) |}.
Proof.
  induction rest as [|m rest IH]; intros i g; simpl.
  - by destruct g.
  - rewrite IH. unfold storeLevel, levelOrigin. simpl.
    by destruct backwards.
Qed.

Lemma levelLoop_new_arrays {number : Type} backwards
    (matrices : list (TileMatrix number)) :
  levelLoop backwards 0 matrices (emptyGrid (length matrices))
  = {| origins := (fun m => Some (levelOrigin backwards m)) <$> matrices;
       resolutions := (fun m => Some (cellSize m)) <$> matrices;
       sizes := (fun m => Some (matrixWidth m, matrixHeight m)) <$> matrices;
       tileSizes := (fun m => Some (tileWidth m, tileHeight m)) <$> matrices |}.
Proof.
  rewrite levelLoop_fill. unfold emptyGrid. simpl.
  by rewrite !fill_new_array.
Qed.

Lemma isBackwards_false p :
  isBackwards p = false <-> beginsWith "en" (getAxisOrientation p).
Proof.
  unfold isBackwards, beginsWith, substr0.
  rewrite negb_false_iff, String.eqb_eq.
  destruct (getAxisOrientation p) as [|a [|b s]];
    cbn [String.substring String.prefix].
  - split; discriminate.
  - destruct (ascii_dec "e" a); split; discriminate.
  - destruct (ascii_dec "e" a) as [<-|Ha].
    + destruct (ascii_dec "n" b) as [<-|Hb].
      * by destruct s.
      * split; [intros [= ->]; done | discriminate].
    + split; [intros [= -> _]; done | discriminate].
Qed.

Lemma isBackwards_true p :
  isBackwards p = true <-> ~ beginsWith "en" (getAxisOrientation p).
Proof.
  rewrite <- isBackwards_false. destruct (isBackwards p); split; congruence.
Qed.

(** The parser returns as soon as a projection is found. *)
Lemma parseTileMatrixSet_resolved {number : Type} getProjection resolveUrl
    (sourceInfo : SourceInfo) tileUrlTemplate
    (tileMatrixSet : TileMatrixSet number) p :
  resolveProjection getProjection sourceInfo tileMatrixSet = Return p ->
  parseTileMatrixSet getProjection resolveUrl sourceInfo tileUrlTemplate
    tileMatrixSet
  = Return
      {| grid :=
           {| origins :=
                (fun m => Some (levelOrigin (isBackwards p) m))
                  <$> tileMatrices tileMatrixSet;
              resolutions :=
                (fun m => Some (cellSize m)) <$> tileMatrices tileMatrixSet;
              sizes :=
                (fun m => Some (matrixWidth m, matrixHeight m))
                  <$> tileMatrices tileMatrixSet;
              tileSizes :=
                (fun m => Some (tileWidth m, tileHeight m))
                  <$> tileMatrices tileMatrixSet |};
         urlTemplate := tileUrlTemplate;
         urlFunction :=
           tileUrlFunction resolveUrl (tileMatrices tileMatrixSet)
             (context sourceInfo) (url sourceInfo) tileUrlTemplate |}.
Proof.
  intros Hp. unfold parseTileMatrixSet. rewrite Hp.
  by rewrite levelLoop_new_arrays.
Qed.

(** ** The URL function: the claims *)

Lemma localContextOf_lookup {number : Type} context
    (matrix : TileMatrix number) tileCoord key :
  localContextOf context matrix tileCoord !! key
  = match callerValue context key with
    | Some v => Some v
    | None => localContextLiteral matrix tileCoord !! key
    end.
Proof.
  unfold localContextOf, assign, callerValue.
  destruct context as [entries|]; [| reflexivity].
  rewrite lookup_union.
  destruct (entries !! key), (localContextLiteral matrix tileCoord !! key);
    reflexivity.
Qed.

Lemma localContextLiteral_tileCol {number : Type}
    (matrix : TileMatrix number) z col row :
  localContextLiteral matrix (z, col, row) !! "tileCol" = Some (VNum col).
Proof.
  unfold localContextLiteral.
  rewrite lookup_insert_ne by done. by rewrite lookup_insert_eq.
Qed.

Lemma localContextLiteral_tileRow {number : Type}
    (matrix : TileMatrix number) z col row :
  localContextLiteral matrix (z, col, row) !! "tileRow"
  = Some (VNum (if strictEq BOTTOM_LEFT_ORIGIN (cornerOfOrigin matrix)
                then - row - 1 else row)).
Proof.
  unfold localContextLiteral.
  rewrite !lookup_insert_ne by done. by rewrite lookup_singleton_eq.
Qed.

(** C5 (amended): for a tile coordinate [z, col, row] of safe integers with
    z an index into the matrix array, the URL function substitutes
    tileCol = col, and tileRow = -row - 1 when the matrix at z has
    cornerOfOrigin "bottomLeft", tileRow = row when it is "topLeft" or unset,
    in each case unless the caller's context has an entry of that name;
    without a tile coordinate it returns undefined and does not throw. *)
Theorem C5_tile_column_and_row {number : Type} resolveUrl
    (matrices : list (TileMatrix number)) context base tileUrlTemplate
    (z col row : Z) (matrix : TileMatrix number) :
  tileUrlFunction resolveUrl matrices context base tileUrlTemplate None
  = Return None
  /\ (at_index matrices z = Some matrix ->
      safeInteger col -> safeInteger row ->
      let localContext := localContextOf context matrix (z, col, row) in
      tileUrlFunction resolveUrl matrices context base tileUrlTemplate
        (Some (z, col, row))
      = Return (Some (resolveUrl base
                        (replacePlaceholders (substitute localContext)
                           tileUrlTemplate)))
      /\ (callerValue context "tileCol" = None ->
          localContext !! "tileCol" = Some (VNum col))
      /\ (callerValue context "tileRow" = None ->
          (cornerOfOrigin matrix = Some "bottomLeft" ->
           localContext !! "tileRow" = Some (VNum (- row - 1)))
          /\ (cornerOfOrigin matrix = Some "topLeft"
              \/ cornerOfOrigin matrix = None ->
              localContext !! "tileRow" = Some (VNum row)))).
Proof.
  split; [reflexivity |].
  intros Hz _ _ localContext. subst localContext.
  split; [| split].
  - unfold tileUrlFunction. simpl. by rewrite Hz.
  - intros Hc. rewrite localContextOf_lookup, Hc.
    apply localContextLiteral_tileCol.
  - intros Hc. split.
    + intros Hcorner. rewrite localContextOf_lookup, Hc.
      rewrite localContextLiteral_tileRow. by rewrite Hcorner.
    + intros Hcorner. rewrite localContextOf_lookup, Hc.
      rewrite localContextLiteral_tileRow.
      by destruct Hcorner as [-> | ->].
Qed.

Lemma C5_tile_column_and_row_witness :
  (tileUrlFunction exampleResolveUrl exampleMatrices None "https://host/"
     "{tileMatrix}/{tileRow}/{tileCol}.png" (Some (2, 3, 5))
   = Return (Some "https://host/2/-6/3.png")
   /\ localContextOf None (mkTileMatrix Z "2" 250 (10, 20) (Some "bottomLeft") 4 4 512 512)
        (2, 3, 5) !! "tileRow" = Some (VNum (-6)))
  /\ localContextOf None (mkTileMatrix Z "0" 1000 (10, 20) None 1 1 256 256)
       (0, 3, 5) !! "tileRow" = Some (VNum 5).
Proof.
  assert (Hcol : safeInteger 3) by (unfold safeInteger; compute_done).
  assert (Hrow : safeInteger 5) by (unfold safeInteger; compute_done).
  split; [split |].
  - exact (proj1 (proj2 (C5_tile_column_and_row exampleResolveUrl
             exampleMatrices None "https://host/"
             "{tileMatrix}/{tileRow}/{tileCol}.png" 2 3 5
             (mkTileMatrix Z "2" 250 (10, 20) (Some "bottomLeft") 4 4 512 512))
           eq_refl Hcol Hrow)).
  - exact (proj1 (proj2 (proj2 (proj2 (C5_tile_column_and_row exampleResolveUrl
             exampleMatrices None "https://host/" "{tileRow}" 2 3 5
             (mkTileMatrix Z "2" 250 (10, 20) (Some "bottomLeft") 4 4 512 512))
           eq_refl Hcol Hrow)) eq_refl) eq_refl).
  - exact (proj2 (proj2 (proj2 (proj2 (C5_tile_column_and_row exampleResolveUrl
             exampleMatrices None "https://host/" "{tileRow}" 0 3 5
             (mkTileMatrix Z "0" 1000 (10, 20) None 1 1 256 256))
           eq_refl Hcol Hrow)) eq_refl) (or_intror eq_refl)).
Defined.

(** C5 as stated fails when the caller's context has an entry named tileRow
    (or tileCol): that entry is what the substitution context holds and what
    the template receives, not the row of the tile coordinate. *)
Lemma C5_counterexample :
  let matrix := mkTileMatrix Z "0" 1000 (10, 20) (Some "topLeft") 1 1 256 256 in
  let context := Some ({[ "tileRow" := VStr "9" ]} : gmap string jsval) in
  at_index [matrix] 0 = Some matrix
  /\ localContextOf context matrix (0, 1, 2) !! "tileRow" = Some (VStr "9")
  /\ replacePlaceholders (substitute (localContextOf context matrix (0, 1, 2)))
       "{tileCol}/{tileRow}" = "1/9"
  /\ replacePlaceholders (substitute (localContextOf None matrix (0, 1, 2)))
       "{tileCol}/{tileRow}" = "1/2".
Proof.
  repeat split; vm_compute; reflexivity.
Qed.




(** ** Parsing a tile matrix set: the claims *)

Lemma at_index_fmap {A B : Type} (f : A -> B) (a : list A) (i : Z) :
  at_index (f <$> a) i = f <$> at_index a i.
Proof.
  unfold at_index. destruct (0 <=? i); [apply list_lookup_fmap | reflexivity].
Qed.

Lemma parseTileMatrixSet_inv {number : Type} getProjection resolveUrl
    sourceInfo tileUrlTemplate (tileMatrixSet : TileMatrixSet number) info :
  parseTileMatrixSet getProjection resolveUrl sourceInfo tileUrlTemplate
    tileMatrixSet = Return info ->
  exists p, resolveProjection getProjection sourceInfo tileMatrixSet = Return p.
Proof.
  unfold parseTileMatrixSet.
  destruct (resolveProjection getProjection sourceInfo tileMatrixSet) as [p|e];
    [by exists p | discriminate].
Qed.

(** C7: when the projection in use has an axis orientation that does not
    begin with "en", the grid's origin at each level is the level's
    pointOfOrigin with its two components swapped; when the orientation
    begins with "en", it is the pointOfOrigin unchanged. *)
Theorem C7_origins_follow_axis_order {number : Type} getProjection resolveUrl
    sourceInfo tileUrlTemplate (tileMatrixSet : TileMatrixSet number)
    (p : Projection) :
  resolveProjection getProjection sourceInfo tileMatrixSet = Return p ->
  exists info,
    parseTileMatrixSet getProjection resolveUrl sourceInfo tileUrlTemplate
      tileMatrixSet = Return info
    /\ forall (i : nat) (matrix : TileMatrix number),
         tileMatrices tileMatrixSet !! i = Some matrix ->
         (~ beginsWith "en" (getAxisOrientation p) ->
          origins (grid info) !! i
          = Some (Some (snd (pointOfOrigin matrix), fst (pointOfOrigin matrix))))
         /\ (beginsWith "en" (getAxisOrientation p) ->
             origins (grid info) !! i = Some (Some (pointOfOrigin matrix))).
Proof.
  intros Hp. eexists. split; [by apply parseTileMatrixSet_resolved |].
  intros i matrix Hi. simpl. rewrite list_lookup_fmap, Hi. simpl.
  split; intros Hen.
  - apply isBackwards_true in Hen. by rewrite Hen.
  - apply isBackwards_false in Hen. by rewrite Hen.
Qed.

Lemma C7_origins_witness :
  let geographic := mkSourceInfo "https://host/tiles" None None None in
  let override :=
    mkSourceInfo "https://host/tiles" None (Some (mkProjection "enu")) None in
  let tileMatrixSet := mkTileMatrixSet Z "WorldCRS84Quad" "EPSG:4326" exampleMatrices in
  (exists info,
     parseTileMatrixSet exampleRegistry exampleResolveUrl geographic "/{tileMatrix}"
       tileMatrixSet = Return info
     /\ origins (grid info) !! 1%nat = Some (Some (20, 10)))
  /\ (exists info,
        parseTileMatrixSet exampleRegistry exampleResolveUrl override "/{tileMatrix}"
          tileMatrixSet = Return info
        /\ origins (grid info) !! 1%nat = Some (Some (10, 20))).
Proof.
  split.
  - destruct (C7_origins_follow_axis_order exampleRegistry exampleResolveUrl
                (mkSourceInfo "https://host/tiles" None None None) "/{tileMatrix}"
                (mkTileMatrixSet Z "WorldCRS84Quad" "EPSG:4326" exampleMatrices)
                (mkProjection "neu") eq_refl) as [info [Hinfo Horigins]].
    exists info. split; [exact Hinfo |].
    exact (proj1 (Horigins 1%nat _ eq_refl) ltac:(discriminate)).
  - destruct (C7_origins_follow_axis_order exampleRegistry exampleResolveUrl
                (mkSourceInfo "https://host/tiles" None
                   (Some (mkProjection "enu")) None) "/{tileMatrix}"
                (mkTileMatrixSet Z "WorldCRS84Quad" "EPSG:4326" exampleMatrices)
                (mkProjection "enu") eq_refl) as [info [Hinfo Horigins]].
    exists info. split; [exact Hinfo |].
    exact (proj2 (Horigins 1%nat _ eq_refl) eq_refl).
Defined.

(** C8: a projection supplied by the caller is the one used: the parser then
    returns whatever the registry holds and whatever the matrix set's crs is.
    The parser throws the unsupported-CRS error exactly when no projection is
    supplied and the registry has none for the matrix set's crs. *)
Theorem C8_projection_override_and_unsupported_crs {number : Type}
    getProjection resolveUrl sourceInfo tileUrlTemplate
    (tileMatrixSet : TileMatrixSet number) :
  (forall p, projection sourceInfo = Some p ->
     resolveProjection getProjection sourceInfo tileMatrixSet = Return p
     /\ (exists info,
           parseTileMatrixSet getProjection resolveUrl sourceInfo
             tileUrlTemplate tileMatrixSet = Return info)
     /\ forall otherRegistry otherCrs,
          parseTileMatrixSet otherRegistry resolveUrl sourceInfo tileUrlTemplate
            (mkTileMatrixSet number (tmsId tileMatrixSet) otherCrs
               (tileMatrices tileMatrixSet))
          = parseTileMatrixSet getProjection resolveUrl sourceInfo
              tileUrlTemplate tileMatrixSet)
  /\ (parseTileMatrixSet getProjection resolveUrl sourceInfo tileUrlTemplate
        tileMatrixSet
      = Throw (Error ("Unsupported CRS: " +:+ crs tileMatrixSet))
      <-> projection sourceInfo = None
          /\ getProjection (crs tileMatrixSet) = None).
Proof.
  split.
  - intros p Hp.
    assert (Hres : resolveProjection getProjection sourceInfo tileMatrixSet
                   = Return p)
      by (unfold resolveProjection; by rewrite Hp).
    split; [exact Hres |]. split.
    + eexists. by apply parseTileMatrixSet_resolved.
    + intros otherRegistry otherCrs.
      unfold parseTileMatrixSet, resolveProjection. by rewrite Hp.
  - unfold parseTileMatrixSet, resolveProjection, unsupportedCrs.
    destruct (projection sourceInfo) as [p|].
    + split; [discriminate | intros [[=] _]].
    + destruct (getProjection (crs tileMatrixSet)) as [p|].
      * split; [discriminate | intros [_ [=]]].
      * split; [done | reflexivity].
Qed.

Lemma C8_projection_witness :
  let unknown := mkTileMatrixSet Z "Custom" "urn:custom:crs" exampleMatrices in
  (exists info,
     parseTileMatrixSet exampleRegistry exampleResolveUrl
       (mkSourceInfo "https://host/tiles" None (Some (mkProjection "enu")) None)
       "/{tileMatrix}" unknown = Return info)
  /\ parseTileMatrixSet exampleRegistry exampleResolveUrl
       (mkSourceInfo "https://host/tiles" None None None)
       "/{tileMatrix}" unknown
     = Throw (Error "Unsupported CRS: urn:custom:crs").
Proof.
  split.
  - exact (proj1 (proj2 (proj1 (C8_projection_override_and_unsupported_crs
             exampleRegistry exampleResolveUrl
             (mkSourceInfo "https://host/tiles" None (Some (mkProjection "enu")) None)
             "/{tileMatrix}"
             (mkTileMatrixSet Z "Custom" "urn:custom:crs" exampleMatrices))
           (mkProjection "enu") eq_refl))).
  - exact (proj2 (proj2 (C8_projection_override_and_unsupported_crs
             exampleRegistry exampleResolveUrl
             (mkSourceInfo "https://host/tiles" None None None)
             "/{tileMatrix}"
             (mkTileMatrixSet Z "Custom" "urn:custom:crs" exampleMatrices)))
           (conj eq_refl eq_refl)).
Defined.

(** C9: for a parsed tile matrix set the four arrays given to the tile grid
    (origins, resolutions, sizes, tileSizes) have the length of tileMatrices,
    and the entry at an index is read off the tile matrix at that index: the
    zoom level z of a tile coordinate, which selects the matrix in the URL
    function, selects that matrix's entry in each of the four. *)
Theorem C9_grid_arrays_are_parallel {number : Type} getProjection resolveUrl
    sourceInfo tileUrlTemplate (tileMatrixSet : TileMatrixSet number)
    (info : TileSetInfo number) :
  parseTileMatrixSet getProjection resolveUrl sourceInfo tileUrlTemplate
    tileMatrixSet = Return info ->
  let matrices := tileMatrices tileMatrixSet in
  (length (origins (grid info)) = length matrices
   /\ length (resolutions (grid info)) = length matrices
   /\ length (sizes (grid info)) = length matrices
   /\ length (tileSizes (grid info)) = length matrices)
  /\ (exists backwards : bool,
        forall (z : Z) (matrix : TileMatrix number),
          at_index matrices z = Some matrix ->
          at_index (origins (grid info)) z
          = Some (Some (levelOrigin backwards matrix))
          /\ at_index (resolutions (grid info)) z
             = Some (Some (cellSize matrix))
          /\ at_index (sizes (grid info)) z
             = Some (Some (matrixWidth matrix, matrixHeight matrix))
          /\ at_index (tileSizes (grid info)) z
             = Some (Some (tileWidth matrix, tileHeight matrix)))
  /\ urlFunction info
     = tileUrlFunction resolveUrl matrices (context sourceInfo)
         (url sourceInfo) tileUrlTemplate.
Proof.
  intros Hinfo matrices. subst matrices.
  destruct (parseTileMatrixSet_inv _ _ _ _ _ _ Hinfo) as [p Hp].
  rewrite (parseTileMatrixSet_resolved _ _ _ _ _ _ Hp) in Hinfo.
  injection Hinfo as <-. simpl.
  split; [by rewrite !length_fmap |].
  split; [| reflexivity].
  exists (isBackwards p). intros z matrix Hz.
  rewrite !at_index_fmap, Hz. done.
Qed.

Lemma C9_grid_arrays_witness :
  exists info,
    parseTileMatrixSet exampleRegistry exampleResolveUrl
      (mkSourceInfo "https://host/tiles" None None None) "/{tileMatrix}"
      (mkTileMatrixSet Z "WebMercatorQuad" "EPSG:3857" exampleMatrices)
    = Return info
    /\ length (origins (grid info)) = 3%nat
    /\ length (tileSizes (grid info)) = 3%nat
    /\ at_index (resolutions (grid info)) 2 = Some (Some 250)
    /\ at_index (tileSizes (grid info)) 2 = Some (Some (512, 512)).
Proof.
  eexists. split; [reflexivity |].
  pose proof (C9_grid_arrays_are_parallel exampleRegistry exampleResolveUrl
                (mkSourceInfo "https://host/tiles" None None None) "/{tileMatrix}"
                (mkTileMatrixSet Z "WebMercatorQuad" "EPSG:3857" exampleMatrices)
                _ eq_refl) as [(Ho & _ & _ & Ht) [[backwards Hz] _]].
  split; [exact Ho |]. split; [exact Ht |].
  destruct (Hz 2 _ eq_refl) as (_ & Hr & _ & Hts).
  split; [exact Hr | exact Hts].
Defined.

(** ** The selectors and the URL function on sample data *)

Example map_selector_takes_last_known_type :
  getMapTileUrlTemplate
    [mkLink "self" "/tiles" "application/json";
     mkLink "item" "/{tileMatrix}/{tileRow}/{tileCol}.png" "image/png";
     mkLink "item" "/{tileMatrix}/{tileRow}/{tileCol}.jpg" "image/jpeg"] None
  = Return "/{tileMatrix}/{tileRow}/{tileCol}.jpg".
Proof. vm_compute. reflexivity. Qed.

Example selectors_throw_on_no_links :
  getMapTileUrlTemplate [] (Some "image/png") = Throw (Error notFoundMessage)
  /\ getVectorTileUrlTemplate [] (Some "application/vnd.mapbox-vector-tile")
     = Throw (Error notFoundMessage)
  /\ includes notFoundMessage "item" = true.
Proof. vm_compute. repeat split; reflexivity. Qed.

Example url_function_on_a_tile :
  tileUrlFunction exampleResolveUrl exampleMatrices None "https://host"
    "/{tileMatrix}/{tileRow}/{tileCol}.jpg" (Some (1, 2, 3))
  = Return (Some "https://host/1/3/2.jpg").
Proof. vm_compute. reflexivity. Qed.

Example url_function_outside_the_matrices :
  tileUrlFunction exampleResolveUrl exampleMatrices None "https://host"
    "/{tileMatrix}" (Some (3, 0, 0)) = Throw TypeError
  /\ tileUrlFunction exampleResolveUrl exampleMatrices None "https://host"
       "/{tileMatrix}" (Some (-1, 0, 0)) = Throw TypeError.
Proof. vm_compute. split; reflexivity. Qed.

Example replace_leaves_other_braces :
  replacePlaceholders (substitute {[ "a" := VNum 1 ]}) "x/{a}/{b}/{}/{{a}/{a b}/{a"
  = "x/1/undefined/{}/{1/{a b}/{a".
Proof. vm_compute. reflexivity. Qed.

Example toString_of_numbers :
  toString (VNum (-3)) = "-3" /\ toString (VNum 0) = "0"
  /\ toString (VNum 120) = "120".
Proof. vm_compute. repeat split; reflexivity. Qed.

(** ** Further properties of the link selectors *)

Lemma mapLoop_items mediaType links : forall fb,
  mapLoop mediaType (filter (fun l => rel l = "item") links) fb
  = mapLoop mediaType links fb.
Proof.
  induction links as [|x links IH]; intros fb; [reflexivity |].
  rewrite filter_cons. destruct (decide (rel x = "item")) as [Hrel|Hrel].
  - simpl. apply String.eqb_eq in Hrel. rewrite Hrel.
    destruct (strictEq (type x) mediaType); [reflexivity |].
    destruct (hasTrue knownMapMediaTypes (type x)); [apply IH |].
    destruct (negb (truthy fb) && (indexOf (type x) "image/" =? 0)); apply IH.
  - simpl. apply String.eqb_neq in Hrel. rewrite Hrel. apply IH.
Qed.

Lemma vectorLoop_items mediaType links : forall fb,
  vectorLoop mediaType (filter (fun l => rel l = "item") links) fb
  = vectorLoop mediaType links fb.
Proof.
  induction links as [|x links IH]; intros fb; [reflexivity |].
  rewrite filter_cons. destruct (decide (rel x = "item")) as [Hrel|Hrel].
  - simpl. apply String.eqb_eq in Hrel. rewrite Hrel.
    destruct (strictEq (type x) mediaType); [reflexivity |].
    destruct (hasTrue knownVectorMediaTypes (type x)); apply IH.
  - simpl. apply String.eqb_neq in Hrel. rewrite Hrel. apply IH.
Qed.

(** X1: links whose relation is not "item" have no effect on either
    selector: the result on a list is the result on its "item" links. *)
Theorem X1_only_item_links_count (links : list Link)
    (mediaType : option string) :
  getMapTileUrlTemplate (filter (fun l => rel l = "item") links) mediaType
  = getMapTileUrlTemplate links mediaType
  /\ getVectorTileUrlTemplate (filter (fun l => rel l = "item") links) mediaType
     = getVectorTileUrlTemplate links mediaType.
Proof.
  unfold getMapTileUrlTemplate, getVectorTileUrlTemplate.
  by rewrite mapLoop_items, vectorLoop_items.
Qed.

Lemma knownRasterType_image t : knownRasterType t -> beginsWith "image/" t.
Proof.
  unfold knownRasterType. rewrite !elem_of_cons, elem_of_nil.
  intros [-> | [-> | [-> | [-> | []]]]]; reflexivity.
Qed.

(** What the variables of the map loop can hold when the loop is left. *)
Lemma mapLoop_sound mediaType links : forall fb tile fb',
  mapLoop mediaType links fb = (tile, fb') ->
  (forall h, tile = Some h ->
     exists l, l ∈ links /\ exactMatch mediaType l /\ href l = h)
  /\ (forall h, fb' = Some h ->
        fb = Some h
        \/ exists l, l ∈ links /\ rel l = "item"
                     /\ (beginsWith "image/" (type l)
                         \/ inheritedName (type l))
                     /\ href l = h).
Proof.
  induction links as [|x links IH]; intros fb tile fb' Hloop.
  { injection Hloop as <- <-. split; [discriminate | by left]. }
  assert (Hlater : forall fb0,
            mapLoop mediaType links fb0 = (tile, fb') ->
            (fb0 = fb \/ (fb0 = Some (href x) /\ rel x = "item"
                          /\ (beginsWith "image/" (type x)
                              \/ inheritedName (type x)))) ->
            (forall h, tile = Some h ->
               exists l, l ∈ x :: links /\ exactMatch mediaType l /\ href l = h)
            /\ (forall h, fb' = Some h ->
                  fb = Some h
                  \/ exists l, l ∈ x :: links /\ rel l = "item"
                               /\ (beginsWith "image/" (type l)
                                   \/ inheritedName (type l))
                               /\ href l = h)).
  { intros fb0 H0 Hfb0. destruct (IH _ _ _ H0) as [Ht Hf]. split.
    - intros h Hh. destruct (Ht h Hh) as (l & Hin & Hl).
      exists l. split; [by apply list_elem_of_further | exact Hl].
    - intros h Hh. destruct (Hf h Hh) as [Hsame | (l & Hin & Hl)].
      + destruct Hfb0 as [-> | (-> & Hrel & Hp)]; [by left |].
        right. exists x. injection Hsame as <-.
        split; [apply list_elem_of_here | done].
      + right. exists l. split; [by apply list_elem_of_further | exact Hl]. }
  simpl in Hloop.
  destruct (String.eqb (rel x) "item") eqn:Hrel; [| by apply (Hlater fb); [| left]].
  apply String.eqb_eq in Hrel.
  destruct (strictEq (type x) mediaType) eqn:Hty.
  { injection Hloop as <- <-. apply strictEq_true in Hty. split.
    - intros h [= <-]. exists x. split; [apply list_elem_of_here | done].
    - intros h Hh. by left. }
  destruct (hasTrue knownMapMediaTypes (type x)) eqn:Hk.
  { apply (Hlater (Some (href x))); [done |]. right.
    split; [done |]. split; [done |].
    apply hasTrue_map in Hk as [Hk | Hk];
      [left; by apply knownRasterType_image | by right]. }
  destruct (negb (truthy fb) && (indexOf (type x) "image/" =? 0)) eqn:Hp.
  - apply (Hlater (Some (href x))); [done |]. right.
    apply andb_true_iff in Hp as [_ Hp]. apply Z.eqb_eq, indexOf_zero in Hp.
    auto.
  - apply (Hlater fb); [done | by left].
Qed.

Lemma vectorLoop_sound mediaType links : forall fb tile fb',
  vectorLoop mediaType links fb = (tile, fb') ->
  (forall h, tile = Some h ->
     exists l, l ∈ links /\ exactMatch mediaType l /\ href l = h)
  /\ (forall h, fb' = Some h ->
        fb = Some h
        \/ exists l, l ∈ links /\ rel l = "item"
                     /\ (knownVectorType (type l) \/ inheritedName (type l))
                     /\ href l = h).
Proof.
  induction links as [|x links IH]; intros fb tile fb' Hloop.
  { injection Hloop as <- <-. split; [discriminate | by left]. }
  assert (Hlater : forall fb0,
            vectorLoop mediaType links fb0 = (tile, fb') ->
            (fb0 = fb \/ (fb0 = Some (href x) /\ rel x = "item"
                          /\ (knownVectorType (type x)
                              \/ inheritedName (type x)))) ->
            (forall h, tile = Some h ->
               exists l, l ∈ x :: links /\ exactMatch mediaType l /\ href l = h)
            /\ (forall h, fb' = Some h ->
                  fb = Some h
                  \/ exists l, l ∈ x :: links /\ rel l = "item"
                               /\ (knownVectorType (type l)
                                   \/ inheritedName (type l))
                               /\ href l = h)).
  { intros fb0 H0 Hfb0. destruct (IH _ _ _ H0) as [Ht Hf]. split.
    - intros h Hh. destruct (Ht h Hh) as (l & Hin & Hl).
      exists l. split; [by apply list_elem_of_further | exact Hl].
    - intros h Hh. destruct (Hf h Hh) as [Hsame | (l & Hin & Hl)].
      + destruct Hfb0 as [-> | (-> & Hrel & Hk)]; [by left |].
        right. exists x. injection Hsame as <-.
        split; [apply list_elem_of_here | done].
      + right. exists l. split; [by apply list_elem_of_further | exact Hl]. }
  simpl in Hloop.
  destruct (String.eqb (rel x) "item") eqn:Hrel; [| by apply (Hlater fb); [| left]].
  apply String.eqb_eq in Hrel.
  destruct (strictEq (type x) mediaType) eqn:Hty.
  { injection Hloop as <- <-. apply strictEq_true in Hty. split.
    - intros h [= <-]. exists x. split; [apply list_elem_of_here | done].
    - intros h Hh. by left. }
  destruct (hasTrue knownVectorMediaTypes (type x)) eqn:Hk.
  - apply (Hlater (Some (href x))); [done |]. right.
    apply hasTrue_vector in Hk. done.
  - apply (Hlater fb); [done | by left].
Qed.

Lemma selectTemplate_Return tile fb h :
  selectTemplate (tile, fb) = Return h ->
  h <> EmptyString /\ (tile = Some h \/ fb = Some h).
Proof.
  unfold selectTemplate.
  destruct tile as [t|]; simpl.
  - destruct (String.eqb t EmptyString) eqn:Ht; simpl.
    + destruct fb as [f|]; simpl; [| discriminate].
      destruct (String.eqb f EmptyString) eqn:Hf; simpl; [discriminate |].
      intros [= <-]. apply String.eqb_neq in Hf. auto.
    + intros [= <-]. apply String.eqb_neq in Ht. auto.
  - destruct fb as [f|]; simpl; [| discriminate].
    destruct (String.eqb f EmptyString) eqn:Hf; simpl; [discriminate |].
    intros [= <-]. apply String.eqb_neq in Hf. auto.
Qed.

(** X2: what a selector returns is never the empty string, and it is the
    href of an "item" link of the list whose type is the preferred type, or
    begins with "image/" (map selector) or is a known vector type (vector
    selector), or is the name of a member inherited from Object.prototype,
    which the lookup in the table of known types finds. *)
Theorem X2_returned_template_comes_from_an_item_link (links : list Link)
    (mediaType : option string) (h : string) :
  (getMapTileUrlTemplate links mediaType = Return h ->
   h <> EmptyString
   /\ exists l, l ∈ links /\ rel l = "item" /\ href l = h
                /\ (mediaType = Some (type l)
                    \/ beginsWith "image/" (type l)
                    \/ inheritedName (type l)))
  /\ (getVectorTileUrlTemplate links mediaType = Return h ->
      h <> EmptyString
      /\ exists l, l ∈ links /\ rel l = "item" /\ href l = h
                   /\ (mediaType = Some (type l)
                       \/ knownVectorType (type l)
                       \/ inheritedName (type l))).
Proof.
  split; intros Hret.
  - unfold getMapTileUrlTemplate in Hret.
    destruct (mapLoop mediaType links None) as [tile fb] eqn:Hloop.
    apply selectTemplate_Return in Hret as [Hne Hfrom].
    split; [exact Hne |].
    destruct (mapLoop_sound _ _ _ _ _ Hloop) as [Ht Hf].
    destruct Hfrom as [Htile | Hfb].
    + destruct (Ht h Htile) as (l & Hin & [Hrel Hty] & Hh). exists l. auto.
    + destruct (Hf h Hfb) as [[=] | (l & Hin & Hrel & Hp & Hh)].
      exists l. tauto.
  - unfold getVectorTileUrlTemplate in Hret.
    destruct (vectorLoop mediaType links None) as [tile fb] eqn:Hloop.
    apply selectTemplate_Return in Hret as [Hne Hfrom].
    split; [exact Hne |].
    destruct (vectorLoop_sound _ _ _ _ _ Hloop) as [Ht Hf].
    destruct Hfrom as [Htile | Hfb].
    + destruct (Ht h Htile) as (l & Hin & [Hrel Hty] & Hh). exists l. auto.
    + destruct (Hf h Hfb) as [[=] | (l & Hin & Hrel & Hk & Hh)].
      exists l. tauto.
Qed.

Lemma X2_returned_template_witness :
  let links := [mkLink "item" "/t.tif" "image/tiff";
                mkLink "item" "/t.json" "application/geo+json"] in
  ("/t.tif" <> EmptyString
   /\ exists l, l ∈ links /\ rel l = "item" /\ href l = "/t.tif"
                /\ (None = Some (type l) \/ beginsWith "image/" (type l)
                    \/ inheritedName (type l)))
  /\ ("/t.json" <> EmptyString
      /\ exists l, l ∈ links /\ rel l = "item" /\ href l = "/t.json"
                   /\ (None = Some (type l) \/ knownVectorType (type l)
                       \/ inheritedName (type l))).
Proof.
  split.
  - exact (proj1 (X2_returned_template_comes_from_an_item_link
             [mkLink "item" "/t.tif" "image/tiff";
              mkLink "item" "/t.json" "application/geo+json"] None "/t.tif")
           eq_refl).
  - exact (proj2 (X2_returned_template_comes_from_an_item_link
             [mkLink "item" "/t.tif" "image/tiff";
              mkLink "item" "/t.json" "application/geo+json"] None "/t.json")
           eq_refl).
Defined.

(** X3: the scan stops at the first "item" link of the preferred type: the
    links after it have no effect on the result of either selector. *)
Theorem X3_links_after_the_exact_match_are_not_read
    (pre post post' : list Link) (l : Link) (mediaType : option string) :
  Forall (fun x => ~ exactMatch mediaType x) pre ->
  exactMatch mediaType l ->
  getMapTileUrlTemplate (pre ++ l :: post) mediaType
  = getMapTileUrlTemplate (pre ++ l :: post') mediaType
  /\ getVectorTileUrlTemplate (pre ++ l :: post) mediaType
     = getVectorTileUrlTemplate (pre ++ l :: post') mediaType.
Proof.
  intros Hpre Hl. unfold getMapTileUrlTemplate, getVectorTileUrlTemplate.
  rewrite !mapLoop_app, !vectorLoop_app by done.
  by rewrite !(mapLoop_exact _ _ _ _ Hl), !(vectorLoop_exact _ _ _ _ Hl).
Qed.

Lemma X3_links_after_the_exact_match_witness :
  let jpeg := mkLink "item" "/t.jpg" "image/jpeg" in
  let png := mkLink "item" "/t.png" "image/png" in
  let gif := mkLink "item" "/t.gif" "image/gif" in
  getMapTileUrlTemplate [jpeg; png; gif; png] (Some "image/png")
  = getMapTileUrlTemplate [jpeg; png] (Some "image/png")
  /\ getVectorTileUrlTemplate [jpeg; png; gif; png] (Some "image/png")
     = getVectorTileUrlTemplate [jpeg; png] (Some "image/png").
Proof.
  apply (X3_links_after_the_exact_match_are_not_read
           [mkLink "item" "/t.jpg" "image/jpeg"]
           [mkLink "item" "/t.gif" "image/gif"; mkLink "item" "/t.png" "image/png"]
           [] (mkLink "item" "/t.png" "image/png") (Some "image/png"));
    evaluate_after ltac:(unfold exactMatch).
Defined.

Lemma mapLoop_no_preference m links : forall fb,
  Forall (fun l => rel l = "item" -> type l <> m) links ->
  mapLoop (Some m) links fb = mapLoop None links fb.
Proof.
  induction links as [|x links IH]; intros fb Hl; [reflexivity |].
  apply Forall_cons in Hl as [Hx Hl]. simpl.
  destruct (String.eqb (rel x) "item") eqn:Hrel; [| by apply IH].
  apply String.eqb_eq in Hrel. apply Hx, String.eqb_neq in Hrel as ->.
  destruct (hasTrue knownMapMediaTypes (type x)); [by apply IH |].
  destruct (negb (truthy fb) && (indexOf (type x) "image/" =? 0)); by apply IH.
Qed.

Lemma vectorLoop_no_preference m links : forall fb,
  Forall (fun l => rel l = "item" -> type l <> m) links ->
  vectorLoop (Some m) links fb = vectorLoop None links fb.
Proof.
  induction links as [|x links IH]; intros fb Hl; [reflexivity |].
  apply Forall_cons in Hl as [Hx Hl]. simpl.
  destruct (String.eqb (rel x) "item") eqn:Hrel; [| by apply IH].
  apply String.eqb_eq in Hrel. apply Hx, String.eqb_neq in Hrel as ->.
  destruct (hasTrue knownVectorMediaTypes (type x)); by apply IH.
Qed.

(** X4: a preferred media type that no "item" link of the list has gives
    the result of calling the selector with no preferred type. *)
Theorem X4_unmatched_preference_is_no_preference (links : list Link)
    (m : string) :
  Forall (fun l => rel l = "item" -> type l <> m) links ->
  getMapTileUrlTemplate links (Some m) = getMapTileUrlTemplate links None
  /\ getVectorTileUrlTemplate links (Some m)
     = getVectorTileUrlTemplate links None.
Proof.
  intros Hl. unfold getMapTileUrlTemplate, getVectorTileUrlTemplate.
  by rewrite mapLoop_no_preference, vectorLoop_no_preference.
Qed.

Lemma X4_unmatched_preference_witness :
  let links := [mkLink "item" "/t.png" "image/png";
                mkLink "alternate" "/t.webp" "image/webp";
                mkLink "item" "/t.json" "application/geo+json"] in
  getMapTileUrlTemplate links (Some "image/webp")
  = getMapTileUrlTemplate links None
  /\ getVectorTileUrlTemplate links (Some "image/webp")
     = getVectorTileUrlTemplate links None.
Proof.
  apply (X4_unmatched_preference_is_no_preference
           [mkLink "item" "/t.png" "image/png";
            mkLink "alternate" "/t.webp" "image/webp";
            mkLink "item" "/t.json" "application/geo+json"] "image/webp");
    evaluate_after idtac.
Defined.

(** As long as the "image/" links met have an empty href, and there is no
    link for whose type the table of raster types answers, the map loop has
    no usable fallback. *)
Lemma mapLoop_no_fallback mediaType links : forall fb,
  truthy fb = false ->
  Forall (fun x => ~ exactMatch mediaType x
                   /\ ~ knownMapLink x /\ ~ inheritedLink x) links ->
  Forall (fun x => rel x = "item" -> beginsWith "image/" (type x) ->
                   href x = EmptyString) links ->
  exists fb', mapLoop mediaType links fb = (None, fb') /\ truthy fb' = false.
Proof.
  induction links as [|x links IH]; intros fb Hfb Hl He; [by exists fb |].
  apply Forall_cons in Hl as [(Hx & Hk & Hi) Hl].
  apply Forall_cons in He as [Hxe He].
  simpl. destruct (String.eqb (rel x) "item") eqn:Hrel; [| by apply IH].
  apply String.eqb_eq in Hrel.
  destruct (strictEq (type x) mediaType) eqn:Hty.
  { exfalso. apply Hx. split; [done | by apply strictEq_true]. }
  destruct (hasTrue knownMapMediaTypes (type x)) eqn:Hh.
  { exfalso. apply hasTrue_map in Hh as [Hh | Hh];
      [by apply Hk | by apply Hi]. }
  rewrite Hfb. simpl.
  destruct (indexOf (type x) "image/" =? 0) eqn:Hp; [| by apply IH].
  apply Z.eqb_eq, indexOf_zero in Hp.
  apply IH; [| done | done]. by rewrite (Hxe Hrel Hp).
Qed.

(** X5: in the map selector, with no exact match and no "item" link for
    whose type the table of raster types answers (a known raster type, or
    the name of a member inherited from Object.prototype), the first "item"
    link whose type begins with "image/" and whose href is not empty is the
    one returned; later such links do not replace it. *)
Theorem X5_first_loose_image_link_wins
    (pre post : list Link) (l : Link) (mediaType : option string) :
  Forall (fun x => ~ exactMatch mediaType x
                   /\ ~ knownMapLink x /\ ~ inheritedLink x)
    (pre ++ l :: post) ->
  Forall (fun x => rel x = "item" -> beginsWith "image/" (type x) ->
                   href x = EmptyString) pre ->
  rel l = "item" -> beginsWith "image/" (type l) -> href l <> EmptyString ->
  getMapTileUrlTemplate (pre ++ l :: post) mediaType = Return (href l).
Proof.
  intros Hall Hpre Hrel Hp Hh.
  apply Forall_app in Hall as [Hpre' Hrest].
  apply Forall_cons in Hrest as [(Hlne & Hlk & _) Hpost].
  destruct (mapLoop_no_fallback mediaType pre None eq_refl Hpre' Hpre)
    as (fb & Hloop & Hfb).
  unfold getMapTileUrlTemplate.
  rewrite mapLoop_app by (eapply Forall_impl; [exact Hpre' | by intros ? [? ?]]).
  rewrite Hloop. simpl snd.
  rewrite (mapLoop_loose mediaType l post fb).
  - rewrite Hfb. rewrite mapLoop_keep; [| by apply truthy_Some | done].
    by apply selectTemplate_fallback.
  - repeat split; [done | | | done].
    + intros Hm. apply Hlne. by split.
    + intros Hk. apply Hlk. by split.
Qed.

Lemma X5_first_loose_image_link_witness :
  getMapTileUrlTemplate
    [mkLink "item" "/t.html" "text/html";
     mkLink "item" "" "image/bmp";
     mkLink "item" "/t.tif" "image/tiff";
     mkLink "item" "/t.avif" "image/avif"] None
  = Return "/t.tif".
Proof.
  apply (X5_first_loose_image_link_wins
           [mkLink "item" "/t.html" "text/html"; mkLink "item" "" "image/bmp"]
           [mkLink "item" "/t.avif" "image/avif"]
           (mkLink "item" "/t.tif" "image/tiff") None);
    evaluate_after
      ltac:(unfold exactMatch, knownMapLink, knownRasterType, beginsWith,
              inheritedLink, inheritedName).
Defined.

Lemma mapLoop_no_exact mediaType links : forall fb,
  Forall (fun x => ~ exactMatch mediaType x) links ->
  fst (mapLoop mediaType links fb) = None.
Proof.
  induction links as [|x links IH]; intros fb Hl; [reflexivity |].
  apply Forall_cons in Hl as [Hx Hl]. simpl.
  destruct (String.eqb (rel x) "item") eqn:Hrel; [| by apply IH].
  destruct (strictEq (type x) mediaType) eqn:Hty.
  { exfalso. apply Hx. split; [by apply String.eqb_eq | by apply strictEq_true]. }
  destruct (hasTrue knownMapMediaTypes (type x)); [by apply IH |].
  destruct (negb (truthy fb) && (indexOf (type x) "image/" =? 0)); by apply IH.
Qed.

Lemma vectorLoop_no_exact mediaType links : forall fb,
  Forall (fun x => ~ exactMatch mediaType x) links ->
  fst (vectorLoop mediaType links fb) = None.
Proof.
  induction links as [|x links IH]; intros fb Hl; [reflexivity |].
  apply Forall_cons in Hl as [Hx Hl]. simpl.
  destruct (String.eqb (rel x) "item") eqn:Hrel; [| by apply IH].
  destruct (strictEq (type x) mediaType) eqn:Hty.
  { exfalso. apply Hx. split; [by apply String.eqb_eq | by apply strictEq_true]. }
  destruct (hasTrue knownVectorMediaTypes (type x)); by apply IH.
Qed.

(** X6: when the first "item" link of the preferred type has an empty href,
    the scan still stops there, and the result of either selector is the one
    the links before it give: their fallback, or the error. *)
Theorem X6_exact_match_with_empty_href_ends_the_scan
    (pre post : list Link) (l : Link) (mediaType : option string) :
  Forall (fun x => ~ exactMatch mediaType x) pre ->
  exactMatch mediaType l ->
  href l = EmptyString ->
  getMapTileUrlTemplate (pre ++ l :: post) mediaType
  = getMapTileUrlTemplate pre mediaType
  /\ getVectorTileUrlTemplate (pre ++ l :: post) mediaType
     = getVectorTileUrlTemplate pre mediaType.
Proof.
  intros Hpre Hl Hh. unfold getMapTileUrlTemplate, getVectorTileUrlTemplate.
  rewrite mapLoop_app, vectorLoop_app by done.
  rewrite mapLoop_exact, vectorLoop_exact by done. rewrite Hh.
  pose proof (mapLoop_no_exact mediaType pre None Hpre) as Hm.
  pose proof (vectorLoop_no_exact mediaType pre None Hpre) as Hv.
  destruct (mapLoop mediaType pre None) as [tm fm].
  destruct (vectorLoop mediaType pre None) as [tv fv].
  simpl in *. by subst.
Qed.

Lemma X6_exact_match_with_empty_href_witness :
  let jpeg := mkLink "item" "/t.jpg" "image/jpeg" in
  let png := mkLink "item" "" "image/png" in
  let gif := mkLink "item" "/t.gif" "image/gif" in
  (getMapTileUrlTemplate [jpeg; png; gif] (Some "image/png")
   = getMapTileUrlTemplate [jpeg] (Some "image/png")
   /\ getVectorTileUrlTemplate [jpeg; png; gif] (Some "image/png")
      = getVectorTileUrlTemplate [jpeg] (Some "image/png"))
  /\ getMapTileUrlTemplate [jpeg; png; gif] (Some "image/png") = Return "/t.jpg".
Proof.
  split; [| reflexivity].
  apply (X6_exact_match_with_empty_href_ends_the_scan
           [mkLink "item" "/t.jpg" "image/jpeg"]
           [mkLink "item" "/t.gif" "image/gif"]
           (mkLink "item" "" "image/png") (Some "image/png"));
    evaluate_after ltac:(unfold exactMatch).
Defined.

(** ** Further properties of the URL function *)

Lemma matchName_needs_close p s :
  occurs "}" s = false -> matchName p s = None.
Proof.
  revert p. induction s as [|c s IH]; intros p Hs; [reflexivity |].
  simpl in *. apply orb_false_iff in Hs as [-> Hs].
  destruct (isWordChar c); [by apply IH | reflexivity].
Qed.

Lemma matchPlaceholder_needs_braces s :
  occurs "{" s = false \/ occurs "}" s = false -> matchPlaceholder s = None.
Proof.
  destruct s as [|o [|c s]]; [reflexivity | reflexivity |].
  intros [Ho | Hc]; cbn [matchPlaceholder].
  - simpl in Ho. apply orb_false_iff in Ho as [-> _]. reflexivity.
  - simpl in Hc. apply orb_false_iff in Hc as [_ Hc].
    apply orb_false_iff in Hc as [Hc1 Hc].
    destruct (Ascii.eqb o "{" && isWordChar c); [| reflexivity].
    by apply matchName_needs_close.
Qed.

Lemma replacePlaceholders_without_braces f s :
  occurs "{" s = false \/ occurs "}" s = false ->
  replacePlaceholders f s = s.
Proof.
  induction s as [|c s IH]; intros Hs; [reflexivity |].
  rewrite replacePlaceholders_cons, matchPlaceholder_needs_braces by done.
  rewrite IH; [reflexivity |].
  simpl in Hs. destruct Hs as [Hs | Hs];
    apply orb_false_iff in Hs as [_ Hs]; auto.
Qed.

(** X7: a template in which no opening brace occurs, or no closing brace,
    has no placeholder: for every tile coordinate within the matrices the URL
    function returns the template itself, resolved against the base URL,
    whatever the coordinate and the context. *)
Theorem X7_template_without_braces_is_kept {number : Type} resolveUrl
    (matrices : list (TileMatrix number)) context base tileUrlTemplate
    (z col row : Z) (matrix : TileMatrix number) :
  at_index matrices z = Some matrix ->
  occurs "{" tileUrlTemplate = false \/ occurs "}" tileUrlTemplate = false ->
  tileUrlFunction resolveUrl matrices context base tileUrlTemplate
    (Some (z, col, row))
  = Return (Some (resolveUrl base tileUrlTemplate)).
Proof.
  intros Hz Hs. unfold tileUrlFunction. simpl. rewrite Hz.
  by rewrite replacePlaceholders_without_braces.
Qed.

Lemma X7_template_without_braces_witness :
  tileUrlFunction exampleResolveUrl exampleMatrices
    (Some ({[ "tileRow" := VStr "9" ]} : gmap string jsval))
    "https://host" "/tiles/tileRow}/0.png" (Some (1, 2, 3))
  = Return (Some "https://host/tiles/tileRow}/0.png")
  /\ tileUrlFunction exampleResolveUrl exampleMatrices None
       "https://host" "/static.png" (Some (2, 0, 0))
     = Return (Some "https://host/static.png").
Proof.
  split.
  - exact (X7_template_without_braces_is_kept exampleResolveUrl
             exampleMatrices
             (Some ({[ "tileRow" := VStr "9" ]} : gmap string jsval))
             "https://host" "/tiles/tileRow}/0.png" 1 2 3
             (mkTileMatrix Z "1" 500 (10, 20) (Some "topLeft") 2 2 256 256)
             eq_refl (or_introl eq_refl)).
  - exact (X7_template_without_braces_is_kept exampleResolveUrl
             exampleMatrices None "https://host" "/static.png" 2 0 0
             (mkTileMatrix Z "2" 250 (10, 20) (Some "bottomLeft") 4 4 512 512)
             eq_refl (or_introl eq_refl)).
Defined.

Lemma at_index_None {A : Type} (a : list A) (z : Z) :
  at_index a z = None <-> ~ inRange z (length a).
Proof.
  unfold at_index, inRange.
  destruct (0 <=? z) eqn:Hz.
  - apply Z.leb_le in Hz. rewrite lookup_ge_None. lia.
  - apply Z.leb_gt in Hz. split; [lia | reflexivity].
Qed.

(** X8: for a tile coordinate whose z is not an index into the matrices
    (negative, or not less than their number) the URL function throws a
    [TypeError], whatever the template, the context and the base URL are:
    nothing is substituted or resolved. *)
Theorem X8_url_function_needs_a_level {number : Type} resolveUrl
    (matrices : list (TileMatrix number)) context base tileUrlTemplate
    (z col row : Z) :
  ~ inRange z (length matrices) ->
  tileUrlFunction resolveUrl matrices context base tileUrlTemplate
    (Some (z, col, row)) = Throw TypeError.
Proof.
  intros Hz. apply at_index_None in Hz.
  unfold tileUrlFunction. simpl. by rewrite Hz.
Qed.

Lemma X8_url_function_needs_a_level_witness :
  tileUrlFunction exampleResolveUrl exampleMatrices None "https://host"
    "/{tileMatrix}" (Some (3, 0, 0)) = Throw TypeError
  /\ tileUrlFunction exampleResolveUrl exampleMatrices None "https://host"
       "/{tileMatrix}" (Some (-1, 0, 0)) = Throw TypeError.
Proof.
  split.
  - apply (X8_url_function_needs_a_level exampleResolveUrl
             exampleMatrices None "https://host" "/{tileMatrix}" 3 0 0).
    unfold inRange. simpl. lia.
  - apply (X8_url_function_needs_a_level exampleResolveUrl
             exampleMatrices None "https://host" "/{tileMatrix}" (-1) 0 0).
    unfold inRange. simpl. lia.
Defined.

Lemma replaceFrom_ext f g n : forall s,
  Forall (fun p => f p = g p) (namesFrom n s) ->
  replaceFrom n f s = replaceFrom n g s.
Proof.
  induction n as [|n IH]; intros s Hs; [reflexivity |].
  destruct s as [|c rest]; [reflexivity |].
  cbn [replaceFrom namesFrom] in *.
  destruct (matchPlaceholder (String c rest)) as [[p after]|].
  - apply Forall_cons in Hs as [-> Hs]. f_equal. by apply IH.
  - f_equal. by apply IH.
Qed.

(** X9: the URL depends on the caller's context only through the names
    that occur as placeholders in the template: two contexts that hold the
    same for each of these names give the same result for every tile
    coordinate. *)
Theorem X9_context_matters_only_at_placeholders {number : Type} resolveUrl
    (matrices : list (TileMatrix number)) context context' base
    tileUrlTemplate (tileCoord : option TileCoord) :
  Forall (fun name => callerValue context name = callerValue context' name)
    (placeholderNames tileUrlTemplate) ->
  tileUrlFunction resolveUrl matrices context base tileUrlTemplate tileCoord
  = tileUrlFunction resolveUrl matrices context' base tileUrlTemplate tileCoord.
Proof.
  intros Hnames. unfold tileUrlFunction.
  destruct tileCoord as [coord|]; [| reflexivity].
  destruct (at_index matrices (fst (fst coord))) as [matrix|]; [| reflexivity].
  simpl. do 3 f_equal. unfold replacePlaceholders.
  apply replaceFrom_ext. eapply Forall_impl; [exact Hnames |].
  intros name Hname. unfold substitute.
  by rewrite !localContextOf_lookup, Hname.
Qed.

Lemma X9_context_matters_only_at_placeholders_witness :
  placeholderNames "/{style}/{tileMatrix}/{tileRow}/{tileCol}.png"
  = ["style"; "tileMatrix"; "tileRow"; "tileCol"]
  /\ tileUrlFunction exampleResolveUrl exampleMatrices
       (Some ({[ "style" := VStr "dark"; "time" := VNum 7 ]} : gmap string jsval))
       "https://host" "/{style}/{tileMatrix}/{tileRow}/{tileCol}.png"
       (Some (1, 2, 3))
     = tileUrlFunction exampleResolveUrl exampleMatrices
         (Some ({[ "style" := VStr "dark" ]} : gmap string jsval))
         "https://host" "/{style}/{tileMatrix}/{tileRow}/{tileCol}.png"
         (Some (1, 2, 3)).
Proof.
  assert (Hnames :
            placeholderNames "/{style}/{tileMatrix}/{tileRow}/{tileCol}.png"
            = ["style"; "tileMatrix"; "tileRow"; "tileCol"])
    by (vm_compute; reflexivity).
  split; [exact Hnames |].
  apply X9_context_matters_only_at_placeholders. rewrite Hnames.
  repeat (apply Forall_cons; split); try apply Forall_nil;
    vm_compute; reflexivity.
Defined.

(** ** Further properties of the tile matrix set parser *)

(** X10: a tile matrix set without tile matrices is parsed without error
    once a projection is found: the four arrays of the grid are empty, and
    the URL function throws a [TypeError] for every tile coordinate and
    returns undefined for none. *)
Theorem X10_no_tile_matrices {number : Type} getProjection resolveUrl
    sourceInfo tileUrlTemplate (tileMatrixSet : TileMatrixSet number)
    (p : Projection) :
  resolveProjection getProjection sourceInfo tileMatrixSet = Return p ->
  tileMatrices tileMatrixSet = [] ->
  exists info,
    parseTileMatrixSet getProjection resolveUrl sourceInfo tileUrlTemplate
      tileMatrixSet = Return info
    /\ grid info = mkTileGrid number [] [] [] []
    /\ urlFunction info None = Return None
    /\ forall tileCoord : TileCoord,
         urlFunction info (Some tileCoord) = Throw TypeError.
Proof.
  intros Hp Hm. eexists. split; [by apply parseTileMatrixSet_resolved |].
  rewrite Hm. simpl. split; [reflexivity |]. split; [reflexivity |].
  intros [[z col] row]. unfold tileUrlFunction, at_index. simpl.
  by destruct (0 <=? z).
Qed.

Lemma X10_no_tile_matrices_witness :
  exists info,
    parseTileMatrixSet exampleRegistry exampleResolveUrl
      (mkSourceInfo "https://host" None None None) "/{tileMatrix}"
      (mkTileMatrixSet Z "Empty" "EPSG:3857" []) = Return info
    /\ grid info = mkTileGrid Z [] [] [] []
    /\ urlFunction info None = Return None
    /\ forall tileCoord : TileCoord,
         urlFunction info (Some tileCoord) = Throw TypeError.
Proof.
  exact (X10_no_tile_matrices exampleRegistry exampleResolveUrl
           (mkSourceInfo "https://host" None None None) "/{tileMatrix}"
           (mkTileMatrixSet Z "Empty" "EPSG:3857" [])
           (mkProjection "enu") eq_refl eq_refl).
Defined.

(** ** The fetch pipeline *)

Lemma selectUrlTemplate_Return {number : Type} sourceInfo
    (tileSet : TileSet number) template :
  selectUrlTemplate sourceInfo tileSet = Return template <->
  (dataType tileSet = "map"
   /\ getMapTileUrlTemplate (links tileSet) (mediaType sourceInfo)
      = Return template)
  \/ (dataType tileSet = "vector"
      /\ getVectorTileUrlTemplate (links tileSet) (mediaType sourceInfo)
         = Return template).
Proof.
  unfold selectUrlTemplate, TileType_MAP, TileType_VECTOR.
  destruct (String.eqb (dataType tileSet) "map") eqn:Hmap.
  - apply String.eqb_eq in Hmap. rewrite Hmap. split; [by left |].
    intros [[_ H] | [[=] _]]. exact H.
  - apply String.eqb_neq in Hmap.
    destruct (String.eqb (dataType tileSet) "vector") eqn:Hvec.
    + apply String.eqb_eq in Hvec. split; [by right |].
      intros [[H _] | [_ H]]; [contradiction | exact H].
    + apply String.eqb_neq in Hvec. split; [discriminate |].
      intros [[H _] | [H _]]; contradiction.
Qed.

(** X11: the pipeline resolves exactly when each of its steps succeeds: the
    tile set document is fetched from the source URL; its data type is "map"
    or "vector" and the selector of that type returns a template for its
    links and the preferred media type; a tile matrix set is inline, or else
    is fetched from the non-empty tileMatrixSetDefinition resolved against
    the source URL; and that matrix set parses.  The result is the parser's,
    for the selected template. *)
Theorem X11_pipeline_resolves_exactly_when_each_step_does {number : Type}
    getProjection resolveUrl
    (getTileSetJSON : string -> completion (TileSet number))
    getTileMatrixSetJSON sourceInfo (info : TileSetInfo number) :
  getTileSetInfo getProjection resolveUrl getTileSetJSON getTileMatrixSetJSON
    sourceInfo = Return info
  <-> exists tileSet template matrixSet,
        getTileSetJSON (url sourceInfo) = Return tileSet
        /\ ((dataType tileSet = "map"
             /\ getMapTileUrlTemplate (links tileSet) (mediaType sourceInfo)
                = Return template)
            \/ (dataType tileSet = "vector"
                /\ getVectorTileUrlTemplate (links tileSet)
                     (mediaType sourceInfo) = Return template))
        /\ (tileMatrixSet tileSet = Some matrixSet
            \/ (tileMatrixSet tileSet = None
                /\ exists definition,
                     tileMatrixSetDefinition tileSet = Some definition
                     /\ definition <> EmptyString
                     /\ getTileMatrixSetJSON
                          (resolveUrl (url sourceInfo) definition)
                        = Return matrixSet))
        /\ parseTileMatrixSet getProjection resolveUrl sourceInfo template
             matrixSet = Return info.
Proof.
  unfold getTileSetInfo, parseTileSetMetadata. split.
  - destruct (getTileSetJSON (url sourceInfo)) as [tileSet|]; [| discriminate].
    destruct (selectUrlTemplate sourceInfo tileSet) as [template|] eqn:Hsel;
      [| discriminate].
    apply selectUrlTemplate_Return in Hsel.
    destruct (tileMatrixSet tileSet) as [inline|] eqn:Hinline.
    { intros Hparse. exists tileSet, template, inline. auto. }
    destruct (tileMatrixSetDefinition tileSet) as [definition|] eqn:Hdef;
      [| discriminate].
    simpl. destruct (String.eqb definition EmptyString) eqn:Hne;
      [discriminate |]. simpl.
    destruct (getTileMatrixSetJSON (resolveUrl (url sourceInfo) definition))
      as [fetched|] eqn:Hfetch; [| discriminate].
    intros Hparse. exists tileSet, template, fetched.
    apply String.eqb_neq in Hne.
    split; [done |]. split; [done |]. split; [| done].
    right. split; [done |]. by exists definition.
  - intros (tileSet & template & matrixSet & -> & Hsel & Hset & Hparse).
    apply selectUrlTemplate_Return in Hsel. rewrite Hsel.
    destruct Hset as [-> | (-> & definition & -> & Hne & Hfetch)];
      [exact Hparse |].
    apply String.eqb_neq in Hne. simpl. rewrite Hne. simpl.
    by rewrite Hfetch.
Qed.

Lemma X11_pipeline_resolves_witness :
  exists info,
    getTileSetInfo exampleRegistry exampleResolveUrl exampleGetTileSet
      exampleGetTileMatrixSet
      (mkSourceInfo "https://host" None None None) = Return info
    /\ urlTemplate info = "/{tileMatrix}/{tileRow}/{tileCol}.jpg"
    /\ urlFunction info (Some (1, 2, 3)) = Return (Some "https://host/1/3/2.jpg").
Proof.
  eexists. split; [| split].
  - apply (proj2 (X11_pipeline_resolves_exactly_when_each_step_does
             exampleRegistry exampleResolveUrl exampleGetTileSet
             exampleGetTileMatrixSet
             (mkSourceInfo "https://host" None None None) _)).
    exists exampleTileSet, "/{tileMatrix}/{tileRow}/{tileCol}.jpg",
      (mkTileMatrixSet Z "WebMercatorQuad" "EPSG:3857" exampleMatrices).
    split; [reflexivity |]. split; [left; split; reflexivity |].
    split; [| reflexivity].
    right. split; [reflexivity |].
    exists "/tileMatrixSets/WebMercatorQuad".
    split; [reflexivity |]. split; [discriminate | reflexivity].
  - reflexivity.
  - vm_compute. reflexivity.
Defined.

(** X12: when the tile set document carries an inline tile matrix set, no
    matrix set is fetched and tileMatrixSetDefinition is not read: the
    outcome is that of parsing the inline set with the selected template,
    and is the same whatever a fetch would yield and whatever the definition
    is. *)
Theorem X12_inline_matrix_set_is_used_without_a_fetch {number : Type}
    getProjection resolveUrl getTileMatrixSetJSON sourceInfo
    (tileSet : TileSet number) (inline : TileMatrixSet number) :
  tileMatrixSet tileSet = Some inline ->
  (forall template,
     selectUrlTemplate sourceInfo tileSet = Return template ->
     parseTileSetMetadata getProjection resolveUrl getTileMatrixSetJSON
       sourceInfo tileSet
     = parseTileMatrixSet getProjection resolveUrl sourceInfo template inline)
  /\ forall otherFetch otherDefinition,
       parseTileSetMetadata getProjection resolveUrl otherFetch sourceInfo
         (mkTileSet number (dataType tileSet) otherDefinition (Some inline)
            (links tileSet))
       = parseTileSetMetadata getProjection resolveUrl getTileMatrixSetJSON
           sourceInfo tileSet.
Proof.
  intros Hinline. split.
  - intros template Hsel. unfold parseTileSetMetadata.
    by rewrite Hsel, Hinline.
  - intros otherFetch otherDefinition.
    unfold parseTileSetMetadata, selectUrlTemplate. simpl.
    by rewrite Hinline.
Qed.

Lemma X12_inline_matrix_set_witness :
  let inline := mkTileMatrixSet Z "WebMercatorQuad" "EPSG:3857" exampleMatrices in
  let tileSet :=
    mkTileSet Z "vector" (Some "/nowhere") (Some inline)
      [mkLink "item" "/{tileMatrix}/{tileRow}/{tileCol}.mvt"
         "application/vnd.mapbox-vector-tile"] in
  let sourceInfo := mkSourceInfo "https://host" None None None in
  parseTileSetMetadata exampleRegistry exampleResolveUrl
    (fun _ => Throw (Error "Not found")) sourceInfo tileSet
  = parseTileMatrixSet exampleRegistry exampleResolveUrl sourceInfo
      "/{tileMatrix}/{tileRow}/{tileCol}.mvt" inline.
Proof.
  exact (proj1 (X12_inline_matrix_set_is_used_without_a_fetch
           exampleRegistry exampleResolveUrl
           (fun _ => Throw (Error "Not found"))
           (mkSourceInfo "https://host" None None None)
           (mkTileSet Z "vector" (Some "/nowhere")
              (Some (mkTileMatrixSet Z "WebMercatorQuad" "EPSG:3857"
                       exampleMatrices))
              [mkLink "item" "/{tileMatrix}/{tileRow}/{tileCol}.mvt"
                 "application/vnd.mapbox-vector-tile"])
           (mkTileMatrixSet Z "WebMercatorQuad" "EPSG:3857" exampleMatrices)
           eq_refl)
         "/{tileMatrix}/{tileRow}/{tileCol}.mvt" eq_refl).
Defined.

(** X14: the checks on a tile set document are made in a fixed order, and
    the first one that fails decides the error.  A data type other than
    "map" and "vector" gives the data type error whatever the links and the
    matrix set are; with a valid data type, a selector that throws gives its
    error whatever the matrix set is; with a template selected, no inline
    matrix set and an absent or empty definition give the missing matrix set
    error without any fetch. *)
Theorem X14_first_failing_check_decides {number : Type} getProjection
    resolveUrl getTileMatrixSetJSON sourceInfo (tileSet : TileSet number) :
  (dataType tileSet <> "map" -> dataType tileSet <> "vector" ->
   parseTileSetMetadata getProjection resolveUrl getTileMatrixSetJSON
     sourceInfo tileSet = Throw (Error invalidDataTypeMessage))
  /\ (forall e,
        (dataType tileSet = "map"
         /\ getMapTileUrlTemplate (links tileSet) (mediaType sourceInfo)
            = Throw e)
        \/ (dataType tileSet = "vector"
            /\ getVectorTileUrlTemplate (links tileSet) (mediaType sourceInfo)
               = Throw e) ->
        parseTileSetMetadata getProjection resolveUrl getTileMatrixSetJSON
          sourceInfo tileSet = Throw e)
  /\ (forall template,
        selectUrlTemplate sourceInfo tileSet = Return template ->
        tileMatrixSet tileSet = None ->
        tileMatrixSetDefinition tileSet = None
        \/ tileMatrixSetDefinition tileSet = Some EmptyString ->
        parseTileSetMetadata getProjection resolveUrl getTileMatrixSetJSON
          sourceInfo tileSet = Throw (Error missingMatrixSetMessage)).
Proof.
  unfold parseTileSetMetadata. split; [| split].
  - intros Hmap Hvec. unfold selectUrlTemplate, TileType_MAP, TileType_VECTOR.
    apply String.eqb_neq in Hmap. apply String.eqb_neq in Hvec.
    by rewrite Hmap, Hvec.
  - intros e [[Hmap Hsel] | [Hvec Hsel]];
      unfold selectUrlTemplate, TileType_MAP, TileType_VECTOR.
    + rewrite Hmap. simpl. by rewrite Hsel.
    + rewrite Hvec. simpl. by rewrite Hsel.
  - intros template Hsel Hinline Hdef. rewrite Hsel, Hinline.
    by destruct Hdef as [-> | ->].
Qed.

Lemma X14_first_failing_check_witness :
  let sourceInfo := mkSourceInfo "https://host" (Some "image/png") None None in
  parseTileSetMetadata exampleRegistry exampleResolveUrl exampleGetTileMatrixSet
    sourceInfo (mkTileSet Z "coverage" None None [])
  = Throw (Error invalidDataTypeMessage)
  /\ parseTileSetMetadata exampleRegistry exampleResolveUrl
       exampleGetTileMatrixSet sourceInfo (mkTileSet Z "map" None None [])
     = Throw (Error notFoundMessage)
  /\ parseTileSetMetadata exampleRegistry exampleResolveUrl
       exampleGetTileMatrixSet sourceInfo
       (mkTileSet Z "map" (Some EmptyString) None
          [mkLink "item" "/{tileMatrix}.png" "image/png"])
     = Throw (Error missingMatrixSetMessage).
Proof.
  split; [| split].
  - apply (proj1 (X14_first_failing_check_decides exampleRegistry
             exampleResolveUrl exampleGetTileMatrixSet
             (mkSourceInfo "https://host" (Some "image/png") None None)
             (mkTileSet Z "coverage" None None []))); discriminate.
  - apply (proj1 (proj2 (X14_first_failing_check_decides exampleRegistry
             exampleResolveUrl exampleGetTileMatrixSet
             (mkSourceInfo "https://host" (Some "image/png") None None)
             (mkTileSet Z "map" None None [])))).
    left. split; reflexivity.
  - apply (proj2 (proj2 (X14_first_failing_check_decides exampleRegistry
             exampleResolveUrl exampleGetTileMatrixSet
             (mkSourceInfo "https://host" (Some "image/png") None None)
             (mkTileSet Z "map" (Some EmptyString) None
                [mkLink "item" "/{tileMatrix}.png" "image/png"])))
           "/{tileMatrix}.png"); [reflexivity | reflexivity | by right].
Defined.
